(** * Knowledge augmentation pipeline

    A shallow embedding of [kolosal_backend/pipeline/knowledge_pipeline.py]
    and the properties of its branching-and-accumulation loop.

    The pipeline calls language-model collaborators (effectful, possibly
    failing) and stores its intermediate data in polars data frames.  Both
    are modelled explicitly: collaborator calls live in a state-and-exception
    monad over an abstract world, data frames are ordered lists of named,
    typed columns with the shape checks polars performs. *)

From Stdlib Require Import String List ZArith Lia Bool Arith.
Import ListNotations.
Local Open Scope string_scope.
Local Open Scope nat_scope.
Local Open Scope list_scope.

(** ** Outcomes *)

(** Python exceptions that can leave the pipeline. [Exception] stands for
    whatever a collaborator raises. *)
Inductive exn : Type :=
| ShapeError
| SchemaError
| ColumnNotFoundError
| InvalidOperationError
| Exception (msg : string).

Inductive outcome (A : Type) : Type :=
| Ok (a : A)
| Raise (e : exn).
Arguments Ok {A} a.
Arguments Raise {A} e.

(** ** Conversation data *)

(** One turn of a chat history: the dict [{"role": ..., "content": ...}]. *)
Record Turn : Type := mkTurn { role : string; content : string }.

Definition ChatHistory : Type := list Turn.

Definition assistant (c : string) : Turn := mkTurn "assistant" c.
Definition user (c : string) : Turn := mkTurn "user" c.

(** ** Data frames *)

Module DataFrame.

(** The three column types the pipeline's schemas use, and [Wider] for an
    integer column that is not [Int64]: [UInt64], or a wider type where the
    release has one. *)
Inductive DataType : Type :=
| ListStruct   (* pl.List(pl.Struct([role: Utf8, content: Utf8])) *)
| Utf8
| Int64
| Wider.

Inductive Series : Type :=
| SChat (l : list ChatHistory)
| SText (l : list string)
| SInt (l : list Z)
| SWide (l : list Z).

Definition dtype (s : Series) : DataType :=
  match s with
  | SChat _ => ListStruct
  | SText _ => Utf8
  | SInt _ => Int64
  | SWide _ => Wider
  end.

Definition len (s : Series) : nat :=
  match s with
  | SChat l => length l
  | SText l => length l
  | SInt l => length l
  | SWide l => length l
  end.

Definition empty_series (t : DataType) : Series :=
  match t with
  | ListStruct => SChat []
  | Utf8 => SText []
  | Int64 => SInt []
  | Wider => SWide []
  end.

(** The values an [Int64] column holds. *)
Definition in_int64 (z : Z) : bool :=
  ((- 2 ^ 63 <=? z) && (z <? 2 ^ 63))%Z.

(** [pl.Series(name, values)] for a list of Python integers: the type is
    inferred from the values. Integers that all fit 64 signed bits make an
    [Int64] column. For any other list the releases of polars differ (a
    [UInt64] column for values below [2 ^ 64] in recent ones, a wider
    column, or an exception raised at once); [wide] tells what the installed
    release does with the list: the exception it raises, or [None] when it
    builds a column, which is then not of type [Int64]. *)
Definition int_series (wide : list Z -> option exn) (l : list Z)
  : outcome Series :=
  if forallb in_int64 l then Ok (SInt l)
  else match wide l with
       | Some e => Raise e
       | None => Ok (SWide l)
       end.

(** [s.new_from_index(0, n)]: the first value repeated [n] times. *)
Definition new_from_index (s : Series) (n : nat) : Series :=
  match s with
  | SChat l => SChat (match l with x :: _ => repeat x n | [] => [] end)
  | SText l => SText (match l with x :: _ => repeat x n | [] => [] end)
  | SInt l => SInt (match l with x :: _ => repeat x n | [] => [] end)
  | SWide l => SWide (match l with x :: _ => repeat x n | [] => [] end)
  end.

(** Appending two series of one type; [None] when the types differ. *)
Definition append (a b : Series) : option Series :=
  match a, b with
  | SChat x, SChat y => Some (SChat (x ++ y))
  | SText x, SText y => Some (SText (x ++ y))
  | SInt x, SInt y => Some (SInt (x ++ y))
  | SWide x, SWide y => Some (SWide (x ++ y))
  | _, _ => None
  end.

(** A frame is its columns, in order. *)
Definition t : Type := list (string * Series).

Definition width (df : t) : nat := length df.

Definition height (df : t) : nat :=
  match df with
  | [] => 0
  | (_, s) :: _ => len s
  end.

Definition column_names (df : t) : list string := map fst df.

(** [pl.DataFrame(schema={...})]: the named columns, all empty. *)
Definition of_schema (schema : list (string * DataType)) : t :=
  map (fun c => (fst c, empty_series (snd c))) schema.

(** [pl.DataFrame({...})] from a dict of lists: the lists must agree in
    length. (A column built from an empty list keeps here the type of its
    list; polars gives it the type Null, which it casts when the column is
    stacked: names, heights and what is raised are the same.) *)
Definition of_dict (cols : list (string * Series)) : outcome t :=
  match cols with
  | [] => Ok []
  | (_, s) :: rest =>
      if forallb (fun c => len (snd c) =? len s) rest
      then Ok cols else Raise ShapeError
  end.

(** [df[name]] *)
Fixpoint get_column (df : t) (name : string) : outcome Series :=
  match df with
  | [] => Raise ColumnNotFoundError
  | (n, s) :: rest => if String.eqb n name then Ok s else get_column rest name
  end.

(** [df[name].to_list()] for a column of chat histories, of text. *)
Definition chat_list (df : t) (name : string) : outcome (list ChatHistory) :=
  match get_column df name with
  | Ok (SChat l) => Ok l
  | Ok _ => Raise SchemaError
  | Raise e => Raise e
  end.

Definition text_list (df : t) (name : string) : outcome (list string) :=
  match get_column df name with
  | Ok (SText l) => Ok l
  | Ok _ => Raise SchemaError
  | Raise e => Raise e
  end.

(** Replace the column called [name], or add it at the end. *)
Fixpoint add_column_by_search (df : t) (name : string) (s : Series) : t :=
  match df with
  | [] => [(name, s)]
  | (n, s0) :: rest =>
      if String.eqb n name then (n, s) :: rest
      else (n, s0) :: add_column_by_search rest name s
  end.

(** Attaching one column, as [with_columns] does once its expressions are
    evaluated. A column as long as the frame is high is accepted, and any
    column by a frame without columns; a one-element column is broadcast to
    the height of the frame (cleared when the frame has no rows); another
    length is a shape error. *)
Definition with_column (df : t) (name : string) (s : Series) : outcome t :=
  let h := height df in
  if (width df =? 0) || (len s =? h)
  then Ok (add_column_by_search df name s)
  else if len s =? 1
  then Ok (add_column_by_search df name
             (if 1 <? h then new_from_index s h else empty_series (dtype s)))
  else Raise ShapeError.

Fixpoint add_columns (df : t) (cols : list (string * Series)) : outcome t :=
  match cols with
  | [] => Ok df
  | (n, s) :: rest =>
      match with_column df n s with
      | Ok df' => add_columns df' rest
      | Raise e => Raise e
      end
  end.

(** A one-element column on a frame of another height. *)
Definition unit_mismatch (h : nat) (s : Series) : bool :=
  (len s =? 1) && negb (len s =? h).

(** [df.with_columns(s1, s2, ...)] with named series. The later releases of
    polars first refuse, with [InvalidOperationError], any one-element
    series on a frame of another height (a series is not a scalar); the
    older ones do not and so broadcast it: [broadcast] selects the older
    behaviour. The columns are then attached in order. *)
Definition with_columns (broadcast : bool) (df : t)
  (cols : list (string * Series)) : outcome t :=
  if negb broadcast && negb (width df =? 0)
     && existsb (fun c => unit_mismatch (height df) (snd c)) cols
  then Raise InvalidOperationError
  else add_columns df cols.

(** Column-wise stacking of two frames of equal width whose columns agree
    in name and type. *)
Fixpoint vstack_columns (a b : t) : outcome t :=
  match a, b with
  | [], [] => Ok []
  | (n, s) :: a', (m, r) :: b' =>
      if String.eqb n m then
        match append s r with
        | Some sr =>
            match vstack_columns a' b' with
            | Ok rest => Ok ((n, sr) :: rest)
            | Raise e => Raise e
            end
        | None => Raise SchemaError
        end
      else Raise ShapeError
  | _, _ => Raise ShapeError
  end.

(** [a.vstack(b)]: a frame without columns takes [b] as it is. *)
Definition vstack (a b : t) : outcome t :=
  if negb (width a =? width b) then
    if width a =? 0 then Ok b else Raise ShapeError
  else vstack_columns a b.

End DataFrame.

(** ** The collaborators

    Everything the pipeline imports: the prompt builders, the generators,
    the scorer and the continuation expander.  Each call may change the
    outside world (model servers, sampling) and may raise.  [broadcast] and
    [wide_integers] are the behaviour of the installed polars release on
    one-element columns and on integers beyond [Int64]. *)
Record Backend : Type := mkBackend {
  World : Type;
  Model : Type;
  Instruction : Type;
  BuiltHistory : Type;
  broadcast : bool;
  wide_integers : list Z -> option exn;
  build_knowledge_instruction :
    string -> string -> World -> outcome (Instruction * World);
  generate_conversation_starter :
    Model -> Z -> Instruction -> option string ->
    World -> outcome (list ChatHistory * World);
  build_chat_histories :
    string -> list string -> list ChatHistory ->
    World -> outcome (list BuiltHistory * World);
  generate_conversations_response :
    Model -> list BuiltHistory -> World -> outcome (list string * World);
  comparison_score :
    Model -> list ChatHistory -> list string -> list string ->
    World -> outcome (list Z * World);
  generate_next_conversation :
    Model -> list ChatHistory -> list string -> list string -> list string ->
    World -> outcome ((list string * list string) * World)
}.

(** [KnowledgeParameter]: the fields of the instruction object the pipeline
    reads. *)
Record KnowledgeParameter (Model : Type) : Type := mkKnowledgeParameter {
  documents : list string;
  conversation_starter_instruction : string;
  conversation_personalization_instruction : string;
  conversation_starter_count : Z;
  max_conversations : Z;
  llm_model : Model;
  slm_model : Model
}.
Arguments documents {Model} _.
Arguments conversation_starter_instruction {Model} _.
Arguments conversation_personalization_instruction {Model} _.
Arguments conversation_starter_count {Model} _.
Arguments max_conversations {Model} _.
Arguments llm_model {Model} _.
Arguments slm_model {Model} _.

(** ** The pipeline monad *)

(** State and exceptions over the collaborators' world: a computation takes
    the world and returns a value with the new world, or raises. *)
Definition M (W A : Type) : Type := W -> outcome (A * W).

Definition ret {W A} (a : A) : M W A := fun w => Ok (a, w).

Definition bind {W A B} (c : M W A) (k : A -> M W B) : M W B :=
  fun w =>
    match c w with
    | Ok (a, w') => k a w'
    | Raise e => Raise e
    end.

(** A data-frame operation inside the monad: the world is untouched. *)
Definition lift {W A} (o : outcome A) : M W A :=
  fun w =>
    match o with
    | Ok a => Ok (a, w)
    | Raise e => Raise e
    end.

Declare Scope pipeline_scope.
Delimit Scope pipeline_scope with pipeline.
Notation "x <- c ;; k" := (bind c (fun x => k))
  (at level 61, c at next level, right associativity) : pipeline_scope.
Notation "' p <- c ;; k" := (bind c (fun x => let 'p := x in k))
  (at level 61, p pattern, c at next level, right associativity) : pipeline_scope.
Local Open Scope pipeline_scope.

(** The two schemas of lines 32-43. *)
Definition augmented_schema : list (string * DataFrame.DataType) :=
  [("chat_history", DataFrame.ListStruct);
   ("document", DataFrame.Utf8);
   ("slm_response", DataFrame.Utf8);
   ("llm_response", DataFrame.Utf8);
   ("scores", DataFrame.Int64)].

Definition temporary_schema : list (string * DataFrame.DataType) :=
  [("chat_history", DataFrame.ListStruct);
   ("document", DataFrame.Utf8)].

(** ** Step 5: the expansion loop *)

(** Python's [zip] of the seven lists stops at the shortest. *)
Definition zip7 {A B C D E F G}
  (a : list A) (b : list B) (c : list C) (d : list D) (e : list E)
  (f : list F) (g : list G) : list (A * (B * (C * (D * (E * (F * G)))))) :=
  combine a (combine b (combine c (combine d (combine e (combine f g))))).

(** One iteration of the [for ... in zip(...)] loop: two appends to each
    accumulator, the SLM branch first. *)
Definition expansion_step
  (acc : list ChatHistory * list string)
  (x : ChatHistory * (string * (string * (string * (string * (string * string))))))
  : list ChatHistory * list string :=
  let '(chat_history,
        (slm_response, (llm_response,
        (slm_question, (llm_question, (slm_document, llm_document)))))) := x in
  let '(generated_chat_histories, generated_chat_documents) := acc in
  let generated_chat_histories :=
    generated_chat_histories
      ++ [chat_history ++ [assistant slm_response; user slm_question]] in
  let generated_chat_documents := generated_chat_documents ++ [slm_document] in
  let generated_chat_histories :=
    generated_chat_histories
      ++ [chat_history ++ [assistant llm_response; user llm_question]] in
  let generated_chat_documents := generated_chat_documents ++ [llm_document] in
  (generated_chat_histories, generated_chat_documents).

Definition expansion
  (chat_histories : list ChatHistory)
  (slm_responses llm_responses slm_questions llm_questions
   slm_documents llm_documents : list string)
  : list ChatHistory * list string :=
  fold_left expansion_step
    (zip7 chat_histories slm_responses llm_responses slm_questions
          llm_questions slm_documents llm_documents)
    ([], []).

Section Pipeline.

Context (B : Backend).

Abbreviation instruction_t := (KnowledgeParameter (Model B)).
Abbreviation state := (DataFrame.t * DataFrame.t)%type.

(** ** Step 1: one document of the seeding loop (lines 46-60) *)
Definition seed_document (instruction : instruction_t)
  (temproary_augmented_data : DataFrame.t) (document : string)
  : M (World B) DataFrame.t :=
  built_knowledge_instructions <-
    build_knowledge_instruction B
      (conversation_starter_instruction instruction) document ;;
  chat_histories_document <-
    generate_conversation_starter B (llm_model instruction)
      (conversation_starter_count instruction)
      built_knowledge_instructions None ;;
  let document_data := repeat document (length chat_histories_document) in
  starters <-
    lift (DataFrame.of_dict
            [("chat_history", DataFrame.SChat chat_histories_document);
             ("document", DataFrame.SText document_data)]) ;;
  lift (DataFrame.vstack temproary_augmented_data starters).

Fixpoint seed (instruction : instruction_t) (docs : list string)
  (temproary_augmented_data : DataFrame.t) : M (World B) DataFrame.t :=
  match docs with
  | [] => ret temproary_augmented_data
  | document :: rest =>
      temproary_augmented_data <-
        seed_document instruction temproary_augmented_data document ;;
      seed instruction rest temproary_augmented_data
  end.

(** ** Steps 2-5: the body of the round loop (lines 64-136) *)
Definition round_body (instruction : instruction_t) (st : state)
  : M (World B) state :=
  let '(augmented_data, temproary_augmented_data) := st in
  (* Step 2 *)
  documents_list <- lift (DataFrame.text_list temproary_augmented_data "document") ;;
  chat_histories <- lift (DataFrame.chat_list temproary_augmented_data "chat_history") ;;
  built_chat_histories <-
    build_chat_histories B
      (conversation_personalization_instruction instruction)
      documents_list chat_histories ;;
  slm_responses <-
    generate_conversations_response B (slm_model instruction) built_chat_histories ;;
  llm_responses <-
    generate_conversations_response B (llm_model instruction) built_chat_histories ;;
  temproary_augmented_data <-
    lift (DataFrame.with_columns (broadcast B) temproary_augmented_data
            [("slm_response", DataFrame.SText slm_responses);
             ("llm_response", DataFrame.SText llm_responses)]) ;;
  (* Step 3 *)
  chat_histories <- lift (DataFrame.chat_list temproary_augmented_data "chat_history") ;;
  scores <-
    comparison_score B (llm_model instruction) chat_histories
      llm_responses slm_responses ;;
  scores_series <- lift (DataFrame.int_series (wide_integers B) scores) ;;
  temproary_augmented_data <-
    lift (DataFrame.with_columns (broadcast B) temproary_augmented_data
            [("scores", scores_series)]) ;;
  (* Step 4 *)
  chat_histories <- lift (DataFrame.chat_list temproary_augmented_data "chat_history") ;;
  documents_list <- lift (DataFrame.text_list temproary_augmented_data "document") ;;
  '(slm_questions, slm_documents) <-
    generate_next_conversation B (llm_model instruction) chat_histories
      slm_responses documents_list (documents instruction) ;;
  chat_histories <- lift (DataFrame.chat_list temproary_augmented_data "chat_history") ;;
  documents_list <- lift (DataFrame.text_list temproary_augmented_data "document") ;;
  '(llm_questions, llm_documents) <-
    generate_next_conversation B (slm_model instruction) chat_histories
      slm_responses documents_list (documents instruction) ;;
  (* Step 5 *)
  chat_histories <- lift (DataFrame.chat_list temproary_augmented_data "chat_history") ;;
  let '(generated_chat_histories, generated_chat_documents) :=
    expansion chat_histories slm_responses llm_responses
      slm_questions llm_questions slm_documents llm_documents in
  (* Save the augmented data *)
  augmented_data <- lift (DataFrame.vstack augmented_data temproary_augmented_data) ;;
  temproary_augmented_data <-
    lift (DataFrame.of_dict
            [("chat_history", DataFrame.SChat generated_chat_histories);
             ("document", DataFrame.SText generated_chat_documents)]) ;;
  ret (augmented_data, temproary_augmented_data).

(** [for i in range(n)]: the body [n] times. *)
Fixpoint rounds (instruction : instruction_t) (n : nat) (st : state)
  : M (World B) state :=
  match n with
  | O => ret st
  | S k =>
      st' <- round_body instruction st ;;
      rounds instruction k st'
  end.

(** Seeding followed by [n] rounds: both frames, as they stand when the
    loop has run [n] times. *)
Definition pipeline_rounds (instruction : instruction_t) (n : nat)
  : M (World B) state :=
  let augmented_data := DataFrame.of_schema augmented_schema in
  let temproary_augmented_data := DataFrame.of_schema temporary_schema in
  temproary_augmented_data <-
    seed instruction (documents instruction) temproary_augmented_data ;;
  rounds instruction n (augmented_data, temproary_augmented_data).

(** The state at the [return] statement; [range] of a negative count is
    empty. *)
Definition pipeline_state (instruction : instruction_t) : M (World B) state :=
  pipeline_rounds instruction (Z.to_nat (max_conversations instruction)).

(** [knowledge_pipeline]: line 138 returns [temproary_augmented_data]. *)
Definition knowledge_pipeline (instruction : instruction_t)
  : M (World B) DataFrame.t :=
  '(augmented_data, temproary_augmented_data) <- pipeline_state instruction ;;
  ret temproary_augmented_data.

End Pipeline.

Arguments expansion : simpl never.

(** ** Frames the pipeline builds *)

(** The working set: the two columns of [temproary_augmented_data]. *)
Definition working (h : list ChatHistory) (d : list string) : DataFrame.t :=
  [("chat_history", DataFrame.SChat h); ("document", DataFrame.SText d)].

(** A working set with its responses and scores attached. *)
Definition scored (h : list ChatHistory) (d sr lr : list string) (sc : list Z)
  : DataFrame.t :=
  [("chat_history", DataFrame.SChat h); ("document", DataFrame.SText d);
   ("slm_response", DataFrame.SText sr); ("llm_response", DataFrame.SText lr);
   ("scores", DataFrame.SInt sc)].

Definition working_frame (df : DataFrame.t) : Prop :=
  exists h d, df = working h d /\ length d = length h.

Definition result_frame (df : DataFrame.t) : Prop :=
  exists h d sr lr sc,
    df = scored h d sr lr sc /\
    length d = length h /\ length sr = length h /\
    length lr = length h /\ length sc = length h.

(** ** Deterministic stub collaborators

    Models are named by strings, the world counts the calls made.  The stub
    generators answer every conversation of the batch they are given. *)
Module Stub.

(** Every starter is one user turn carrying the built instruction. *)
Definition starter (instruction : string) (i : nat) : ChatHistory :=
  [user instruction].

Definition stub_build_knowledge_instruction (instruction document : string)
  (w : nat) : outcome (string * nat) :=
  Ok (String.append instruction document, S w).

Definition stub_generate_conversation_starter (m : string) (n : Z)
  (instruction : string) (system_prompt : option string) (w : nat)
  : outcome (list ChatHistory * nat) :=
  Ok (map (starter instruction) (seq 0 (Z.to_nat n)), S w).

Definition stub_build_chat_histories (instruction : string)
  (docs : list string) (hs : list ChatHistory) (w : nat)
  : outcome (list (string * ChatHistory) * nat) :=
  Ok (map (fun h => (instruction, h)) hs, S w).

Definition stub_generate_conversations_response (m : string)
  (built : list (string * ChatHistory)) (w : nat) : outcome (list string * nat) :=
  Ok (map (fun _ => String.append m " answer") built, S w).

Definition stub_comparison_score (m : string) (hs : list ChatHistory)
  (llm_responses slm_responses : list string) (w : nat)
  : outcome (list Z * nat) :=
  Ok (map (fun _ => 1%Z) hs, S w).

(** Follow-up questions name the asking model and quote the response they
    follow; every grounding document is the first of the bank. *)
Definition stub_generate_next_conversation (m : string)
  (hs : list ChatHistory) (responses docs bank : list string) (w : nat)
  : outcome ((list string * list string) * nat) :=
  Ok ((map (fun i => String.append m
                      (String.append " asks after " (nth i responses "")))
           (seq 0 (length hs)),
       map (fun _ => hd "" bank) hs), S w).

Definition backend : Backend :=
  mkBackend nat string string (string * ChatHistory) false (fun _ => None)
    stub_build_knowledge_instruction
    stub_generate_conversation_starter
    stub_build_chat_histories
    stub_generate_conversations_response
    stub_comparison_score
    stub_generate_next_conversation.

Definition instruction (docs : list string) (starters rounds : Z)
  : KnowledgeParameter string :=
  mkKnowledgeParameter string docs "start: " "personalise"
    starters rounds "LLM" "SLM".

End Stub.

(** ** Describing one round *)

(** What the collaborators returned in one round, in call order. *)
Record RoundData (B : Backend) : Type := mkRoundData {
  built_chat_histories : list (BuiltHistory B);
  slm_responses : list string;
  llm_responses : list string;
  scores : list Z;
  slm_questions : list string;
  slm_documents : list string;
  llm_questions : list string;
  llm_documents : list string
}.
Arguments built_chat_histories {B} _.
Arguments slm_responses {B} _.
Arguments llm_responses {B} _.
Arguments scores {B} _.
Arguments slm_questions {B} _.
Arguments slm_documents {B} _.
Arguments llm_questions {B} _.
Arguments llm_documents {B} _.

(** The six collaborator calls of a round on the working set [(h, d)], from
    world [w] to world [w'], with their arguments as the source passes
    them. *)
Definition round_calls (B : Backend) (instruction : KnowledgeParameter (Model B))
  (h : list ChatHistory) (d : list string) (w : World B)
  (r : RoundData B) (w' : World B) : Prop :=
  exists w1 w2 w3 w4 w5,
    build_chat_histories B (conversation_personalization_instruction instruction)
      d h w = Ok (built_chat_histories r, w1) /\
    generate_conversations_response B (slm_model instruction)
      (built_chat_histories r) w1 = Ok (slm_responses r, w2) /\
    generate_conversations_response B (llm_model instruction)
      (built_chat_histories r) w2 = Ok (llm_responses r, w3) /\
    comparison_score B (llm_model instruction) h
      (llm_responses r) (slm_responses r) w3 = Ok (scores r, w4) /\
    generate_next_conversation B (llm_model instruction) h
      (slm_responses r) d (documents instruction) w4
      = Ok ((slm_questions r, slm_documents r), w5) /\
    generate_next_conversation B (slm_model instruction) h
      (slm_responses r) d (documents instruction) w5
      = Ok ((llm_questions r, llm_documents r), w').

(** The expansion of a round's data. *)
Definition expand {B : Backend} (h : list ChatHistory) (r : RoundData B)
  : list ChatHistory * list string :=
  expansion h (slm_responses r) (llm_responses r)
    (slm_questions r) (llm_questions r) (slm_documents r) (llm_documents r).

(** What the stub collaborators answer in a round on the chat histories
    [hs]. *)
Definition stub_round_data (i : KnowledgeParameter string)
  (hs : list ChatHistory) : RoundData Stub.backend :=
  let built :=
    map (fun h => (conversation_personalization_instruction i, h)) hs in
  let sr := map (fun _ => String.append (slm_model i) " answer") built in
  let lr := map (fun _ => String.append (llm_model i) " answer") built in
  let ask m :=
    map (fun k => String.append m
                    (String.append " asks after " (nth k sr "")))
        (seq 0 (length hs)) in
  let docs := map (fun _ => hd "" (documents i)) hs in
  mkRoundData Stub.backend built sr lr (map (fun _ => 1%Z) hs)
    (ask (llm_model i)) docs (ask (slm_model i)) docs.

(** The working set [(h, d)] with a response pair and a score column
    attached by the two [with_columns] of a round: the attached columns
    have the height of the working set and are the collaborators' arrays
    when those have that length; the score column has the type inferred for
    the scorer's integers; a release that does not broadcast attaches only
    arrays of the working set's length. *)
Definition completed {B : Backend} (h : list ChatHistory) (d : list string)
  (r : RoundData B) (c : DataFrame.t) : Prop :=
  exists sr lr s s0,
    c = working h d ++ [("slm_response", DataFrame.SText sr);
                        ("llm_response", DataFrame.SText lr);
                        ("scores", s)] /\
    length sr = length h /\ length lr = length h /\
    DataFrame.len s = length h /\
    (length (slm_responses r) = length h -> sr = slm_responses r) /\
    (length (llm_responses r) = length h -> lr = llm_responses r) /\
    DataFrame.int_series (wide_integers B) (scores r) = Ok s0 /\
    DataFrame.dtype s = DataFrame.dtype s0 /\
    (length (scores r) = length h -> s = s0) /\
    (broadcast B = false ->
     length (slm_responses r) = length h /\
     length (llm_responses r) = length h /\
     length (scores r) = length h).

(** The two successors of one zipped conversation. *)
Definition slm_branch
  (x : ChatHistory * (string * (string * (string * (string * (string * string))))))
  : ChatHistory * string :=
  let '(h, (sr, (lr, (sq, (lq, (sd, ld)))))) := x in
  (h ++ [assistant sr; user sq], sd).

Definition llm_branch
  (x : ChatHistory * (string * (string * (string * (string * (string * string))))))
  : ChatHistory * string :=
  let '(h, (sr, (lr, (sq, (lq, (sd, ld)))))) := x in
  (h ++ [assistant lr; user lq], ld).

(** Collaborators that answer every call with arrays as long as the batch
    they were given. *)
Record Aligned (B : Backend) : Prop := mkAligned {
  aligned_build : forall i d h w,
    exists out w', build_chat_histories B i d h w = Ok (out, w') /\
                   length out = length h;
  aligned_response : forall m built w,
    exists out w', generate_conversations_response B m built w = Ok (out, w') /\
                   length out = length built;
  aligned_score : forall m h lr sr w,
    exists out w', comparison_score B m h lr sr w = Ok (out, w') /\
                   length out = length h;
  aligned_next : forall m h rs d bank w,
    exists qs ds w', generate_next_conversation B m h rs d bank w
                     = Ok ((qs, ds), w') /\
                     length qs = length h /\ length ds = length h
}.

(** Stacking a list of frames under a first one, in order. *)
Definition vstack_all (a : DataFrame.t) (frames : list DataFrame.t)
  : outcome DataFrame.t :=
  fold_left
    (fun acc c =>
       match acc with
       | Ok df => DataFrame.vstack df c
       | Raise e => Raise e
       end)
    frames (Ok a).

(** [c] is the working set [tmp] with a response, a response and a score
    for each of its records. *)
Definition scored_from (tmp c : DataFrame.t) : Prop :=
  exists h d sr lr sc,
    tmp = working h d /\ c = scored h d sr lr sc /\
    length d = length h /\ length sr = length h /\
    length lr = length h /\ length sc = length h.

(** ** Recording the collaborator calls

    [instrument B] behaves as [B] and keeps, next to the world of [B], the
    list of the calls made so far with their arguments. *)
Inductive Call (B : Backend) : Type :=
| CallKnowledgeInstruction (instruction document : string)
| CallStarter (llm : Model B) (num_instructions : Z)
    (instruction : Instruction B) (system_prompt : option string)
| CallBuildHistories (instruction : string) (docs : list string)
    (chat_histories : list ChatHistory)
| CallResponse (model : Model B) (chat_histories : list (BuiltHistory B))
| CallScore (llm : Model B) (chat_histories : list ChatHistory)
    (llm_responses slm_responses : list string)
| CallNext (llm : Model B) (chat_histories : list ChatHistory)
    (responses docs document_bank : list string).
Arguments CallKnowledgeInstruction {B} _ _.
Arguments CallStarter {B} _ _ _ _.
Arguments CallBuildHistories {B} _ _ _.
Arguments CallResponse {B} _ _.
Arguments CallScore {B} _ _ _ _.
Arguments CallNext {B} _ _ _ _ _.

Definition logged {B : Backend} {A : Type} (c : Call B)
  (f : World B -> outcome (A * World B))
  : World B * list (Call B) -> outcome (A * (World B * list (Call B))) :=
  fun wl =>
    match f (fst wl) with
    | Ok (a, w') => Ok (a, (w', snd wl ++ [c]))
    | Raise e => Raise e
    end.

Definition instrument (B : Backend) : Backend :=
  mkBackend (World B * list (Call B)) (Model B) (Instruction B) (BuiltHistory B)
    (broadcast B) (wide_integers B)
    (fun i d => logged (CallKnowledgeInstruction i d)
                  (build_knowledge_instruction B i d))
    (fun m n i sp => logged (CallStarter m n i sp)
                       (generate_conversation_starter B m n i sp))
    (fun i d h => logged (CallBuildHistories i d h)
                    (build_chat_histories B i d h))
    (fun m bh => logged (CallResponse m bh)
                   (generate_conversations_response B m bh))
    (fun m h lr sr => logged (CallScore m h lr sr)
                        (comparison_score B m h lr sr))
    (fun m h rs d bank => logged (CallNext m h rs d bank)
                            (generate_next_conversation B m h rs d bank)).

(** ** An expander that answers short

    The stub collaborators, except that the continuation expander proposes
    a follow-up for the first conversation of the batch only. *)
Module Short.

Definition short_generate_next_conversation (m : string)
  (hs : list ChatHistory) (responses docs bank : list string) (w : nat)
  : outcome ((list string * list string) * nat) :=
  Ok ((firstn 1 (map (fun _ => String.append m " asks") hs),
       firstn 1 (map (fun _ => hd "" bank) hs)), S w).

Definition backend : Backend :=
  mkBackend nat string string (string * ChatHistory) false (fun _ => None)
    Stub.stub_build_knowledge_instruction
    Stub.stub_generate_conversation_starter
    Stub.stub_build_chat_histories
    Stub.stub_generate_conversations_response
    Stub.stub_comparison_score
    short_generate_next_conversation.

End Short.

(** ** Collaborators at the edges of the data-frame engine

    The stub collaborators, except for a scorer whose scores do not fit 64
    signed bits, and except for a response generator that answers any batch
    with a single response. *)
Module Edge.

Definition big_comparison_score (m : string) (hs : list ChatHistory)
  (llm_responses slm_responses : list string) (w : nat)
  : outcome (list Z * nat) :=
  Ok (map (fun _ => (2 ^ 63)%Z) hs, S w).

Definition big_backend : Backend :=
  mkBackend nat string string (string * ChatHistory) false (fun _ => None)
    Stub.stub_build_knowledge_instruction
    Stub.stub_generate_conversation_starter
    Stub.stub_build_chat_histories
    Stub.stub_generate_conversations_response
    big_comparison_score
    Stub.stub_generate_next_conversation.

Definition single_response (m : string)
  (built : list (string * ChatHistory)) (w : nat) : outcome (list string * nat) :=
  Ok ([String.append m " answer"], S w).

Definition single_backend : Backend :=
  mkBackend nat string string (string * ChatHistory) false (fun _ => None)
    Stub.stub_build_knowledge_instruction
    Stub.stub_generate_conversation_starter
    Stub.stub_build_chat_histories
    single_response
    Stub.stub_comparison_score
    Stub.stub_generate_next_conversation.

End Edge.

(** What [with_columns] raises when given columns of the lengths [lens] on
    a frame of height [n] that has columns: [InvalidOperationError] when a
    release that does not broadcast meets a one-element column, [ShapeError]
    for a column of another length that is not the frame's height, nothing
    otherwise. *)
Definition attach_error (broadcast : bool) (n : nat) (lens : list nat)
  : option exn :=
  if negb broadcast && existsb (fun l => (l =? 1) && negb (l =? n)) lens
  then Some InvalidOperationError
  else if existsb (fun l => negb (l =? n) && negb (l =? 1)) lens
  then Some ShapeError
  else None.

(** A scorer whose scores fit 64 signed bits. *)
Definition Int64Scores (B : Backend) : Prop :=
  forall m h lr sr w out w',
    comparison_score B m h lr sr w = Ok (out, w') ->
    forallb DataFrame.in_int64 out = true.

(** Collaborators that answer the empty batch: the chat-history builder, the
    response generator and the scorer with empty arrays, the continuation
    expander with whatever arrays. *)
Record AnswersEmptyBatch (B : Backend)
  (instruction : KnowledgeParameter (Model B)) : Prop := mkAnswersEmptyBatch {
  empty_build : forall w,
    exists w',
      build_chat_histories B
        (conversation_personalization_instruction instruction) [] [] w
      = Ok ([], w');
  empty_response : forall m w,
    exists w', generate_conversations_response B m [] w = Ok ([], w');
  empty_score : forall m w,
    exists w', comparison_score B m [] [] [] w = Ok ([], w');
  empty_next : forall m w,
    exists qs ds w',
      generate_next_conversation B m [] [] [] (documents instruction) w
      = Ok ((qs, ds), w')
}.

(** The calls of the seeding loop and what they returned: for each document
    in turn, from world [w] to world [w'], the instruction is built and the
    starter generator returns that document's list of [starters]. *)
Fixpoint seed_run (B : Backend) (instruction : KnowledgeParameter (Model B))
  (docs : list string) (w : World B) (starters : list (list ChatHistory))
  (w' : World B) : Prop :=
  match docs, starters with
  | [], [] => w' = w
  | document :: docs', chats :: starters' =>
      exists built w1 w2,
        build_knowledge_instruction B
          (conversation_starter_instruction instruction) document w
        = Ok (built, w1) /\
        generate_conversation_starter B (llm_model instruction)
          (conversation_starter_count instruction) built None w1
        = Ok (chats, w2) /\
        seed_run B instruction docs' w2 starters' w'
  | _, _ => False
  end.

(** ** Describing the seeding, the descent of conversations and failures *)

(** The document column the seeding loop writes when the starter generator
    answered [starters], one list of chat histories per document: each
    document repeated once per starter generated from it, in document
    order. *)
Definition seeded_documents (docs : list string)
  (starters : list (list ChatHistory)) : list string :=
  flat_map (fun p => repeat (fst p) (length (snd p))) (combine docs starters).

(** The calls of the seeding loop: for each document the instruction is
    built and the starters are asked of the LLM, [builts] being the built
    instructions. *)
Definition seed_calls (B : Backend) (instruction : KnowledgeParameter (Model B))
  (docs : list string) (builts : list (Instruction B)) : list (Call B) :=
  flat_map
    (fun p =>
       [CallKnowledgeInstruction
          (conversation_starter_instruction instruction) (fst p);
        CallStarter (llm_model instruction)
          (conversation_starter_count instruction) (snd p) None])
    (combine docs builts).

(** Turns appended by successive rounds: a response and a follow-up question
    per round. *)
Definition turn_pairs (aq : list (string * string)) : list Turn :=
  flat_map (fun p => [assistant (fst p); user (snd p)]) aq.


(** ** A scorer that fails

    The stub collaborators, except that the scorer raises. *)
Module Failing.

Definition failing_comparison_score (m : string) (hs : list ChatHistory)
  (llm_responses slm_responses : list string) (w : nat)
  : outcome (list Z * nat) :=
  Raise (Exception "scorer unavailable").

Definition backend : Backend :=
  mkBackend nat string string (string * ChatHistory) false (fun _ => None)
    Stub.stub_build_knowledge_instruction
    Stub.stub_generate_conversation_starter
    Stub.stub_build_chat_histories
    Stub.stub_generate_conversations_response
    failing_comparison_score
    Stub.stub_generate_next_conversation.

End Failing.

(** ** Facts about the data-frame operations *)

Section FrameFacts.

Import DataFrame.

Lemma len_new_from_index (s : Series) (n : nat) :
  len s = 1 -> len (new_from_index s n) = n.
Proof.
  destruct s as [l|l|l|l]; simpl; destruct l; simpl; intros H;
    try discriminate; apply repeat_length.
Qed.

Lemma dtype_new_from_index (s : Series) (n : nat) :
  dtype (new_from_index s n) = dtype s.
Proof. destruct s; reflexivity. Qed.

Lemma len_empty_series (ty : DataType) : len (empty_series ty) = 0.
Proof. destruct ty; reflexivity. Qed.

Lemma dtype_empty_series (ty : DataType) : dtype (empty_series ty) = ty.
Proof. destruct ty; reflexivity. Qed.

(** A column of the frame's height is attached as it is. *)
Lemma with_column_aligned (df : t) (n : string) (s : Series) :
  len s = height df ->
  with_column df n s = Ok (add_column_by_search df n s).
Proof.
  intros H. unfold with_column.
  now rewrite H, Nat.eqb_refl, orb_true_r.
Qed.

(** Whatever is attached to a frame that has columns has the frame's height
    and the type of the column given, which had that height or one
    element. *)
Lemma with_column_ok (df c : t) (n : string) (s : Series) :
  width df <> 0 ->
  with_column df n s = Ok c ->
  exists s', c = add_column_by_search df n s' /\
             dtype s' = dtype s /\ len s' = height df /\
             (len s = height df -> s' = s) /\
             (len s = height df \/ len s = 1).
Proof.
  intros Hw. unfold with_column.
  apply Nat.eqb_neq in Hw. rewrite Hw. cbn [orb].
  destruct (Nat.eqb_spec (len s) (height df)) as [El|El].
  - intros H. injection H as <-. exists s. repeat split; auto.
  - destruct (Nat.eqb_spec (len s) 1) as [E1|E1]; [|discriminate].
    intros H. injection H as <-.
    destruct (Nat.ltb_spec 1 (height df)) as [Hh|Hh].
    + exists (new_from_index s (height df)). repeat split.
      * apply dtype_new_from_index.
      * apply len_new_from_index, E1.
      * intros; contradiction.
      * now right.
    + exists (empty_series (dtype s)). repeat split.
      * apply dtype_empty_series.
      * rewrite len_empty_series. lia.
      * intros; contradiction.
      * now right.
Qed.

(** Attaching a column raises nothing but the shape error, and that for a
    length that is neither the frame's height nor one. *)
Lemma with_column_raise (df : t) (n : string) (s : Series) (e : exn) :
  with_column df n s = Raise e ->
  e = ShapeError /\ len s <> height df /\ len s <> 1.
Proof.
  unfold with_column.
  destruct (width df =? 0); [discriminate|]. cbn [orb].
  destruct (Nat.eqb_spec (len s) (height df)); [discriminate|].
  destruct (Nat.eqb_spec (len s) 1); [discriminate|].
  intros H. injection H as <-. auto.
Qed.

Lemma with_column_shape (df : t) (n : string) (s : Series) :
  width df <> 0 -> len s <> height df -> len s <> 1 ->
  with_column df n s = Raise ShapeError.
Proof.
  intros Hw Hl H1. unfold with_column.
  apply Nat.eqb_neq in Hw, Hl, H1. now rewrite Hw, Hl, H1.
Qed.



Lemma vstack_working (h1 h2 : list ChatHistory) (d1 d2 : list string) :
  vstack (working h1 d1) (working h2 d2) = Ok (working (h1 ++ h2) (d1 ++ d2)).
Proof. reflexivity. Qed.

Lemma vstack_scored h1 d1 sr1 lr1 sc1 h2 d2 sr2 lr2 sc2 :
  vstack (scored h1 d1 sr1 lr1 sc1) (scored h2 d2 sr2 lr2 sc2)
  = Ok (scored (h1 ++ h2) (d1 ++ d2) (sr1 ++ sr2) (lr1 ++ lr2) (sc1 ++ sc2)).
Proof. reflexivity. Qed.

Lemma of_dict_working (h : list ChatHistory) (d : list string) :
  length d = length h -> of_dict (working h d) = Ok (working h d).
Proof.
  intros H. unfold of_dict, working. simpl. rewrite H, Nat.eqb_refl. reflexivity.
Qed.

Lemma chat_list_working_app h d rest :
  chat_list (working h d ++ rest) "chat_history" = Ok h.
Proof. reflexivity. Qed.

Lemma text_list_working_app h d rest :
  text_list (working h d ++ rest) "document" = Ok d.
Proof. reflexivity. Qed.

Lemma chat_list_working h d : chat_list (working h d) "chat_history" = Ok h.
Proof. reflexivity. Qed.

Lemma text_list_working h d : text_list (working h d) "document" = Ok d.
Proof. reflexivity. Qed.

Lemma chat_list_scored h d sr lr sc :
  chat_list (scored h d sr lr sc) "chat_history" = Ok h.
Proof. reflexivity. Qed.

Lemma text_list_scored h d sr lr sc :
  text_list (scored h d sr lr sc) "document" = Ok d.
Proof. reflexivity. Qed.

(** The integers of an [Int64] column built by inference fit 64 bits. *)
Lemma int_series_int64 wide l s :
  int_series wide l = Ok s -> dtype s = Int64 ->
  forallb in_int64 l = true /\ s = SInt l.
Proof.
  unfold int_series. destruct (forallb in_int64 l).
  - intros H _. injection H as <-. auto.
  - destruct (wide l); [discriminate|].
    intros H. injection H as <-. discriminate.
Qed.

Lemma int_series_in_range wide l :
  forallb in_int64 l = true -> int_series wide l = Ok (SInt l).
Proof. unfold int_series. now intros ->. Qed.

Lemma int_series_len wide l s : int_series wide l = Ok s -> len s = length l.
Proof.
  unfold int_series. destruct (forallb in_int64 l).
  - intros H. now injection H as <-.
  - destruct (wide l); [discriminate|]. intros H. now injection H as <-.
Qed.

(** ** The two [with_columns] of a round *)

Lemma attach_responses_ok b h d sr lr c :
  with_columns b (working h d)
    [("slm_response", SText sr); ("llm_response", SText lr)] = Ok c ->
  exists sr' lr',
    c = working h d ++ [("slm_response", SText sr'); ("llm_response", SText lr')] /\
    length sr' = length h /\ length lr' = length h /\
    (length sr = length h -> sr' = sr) /\
    (length lr = length h -> lr' = lr) /\
    (b = false -> length sr = length h /\ length lr = length h).
Proof.
  unfold with_columns.
  destruct (negb b && negb (width (working h d) =? 0) && _) eqn:G;
    [discriminate|].
  cbn [add_columns].
  destruct (with_column (working h d) "slm_response" (SText sr)) as [c1|] eqn:E1;
    [|discriminate].
  apply with_column_ok in E1; [|discriminate].
  destruct E1 as (s1 & -> & Hd1 & Hl1 & Hs1 & Ha1).
  destruct s1 as [|sr'| |]; try discriminate. simpl in Hl1, Hs1, Ha1.
  simpl add_column_by_search.
  destruct (with_column _ "llm_response" (SText lr)) as [c2|] eqn:E2;
    [|discriminate].
  apply with_column_ok in E2; [|discriminate].
  destruct E2 as (s2 & -> & Hd2 & Hl2 & Hs2 & Ha2).
  destruct s2 as [|lr'| |]; try discriminate. simpl in Hl2, Hs2, Ha2.
  intros H. injection H as <-.
  exists sr', lr'.
  split; [reflexivity|]. split; [exact Hl1|]. split; [exact Hl2|].
  split; [intros H; specialize (Hs1 H); congruence|].
  split; [intros H; specialize (Hs2 H); congruence|].
  intros ->. simpl in G. unfold unit_mismatch in G. simpl in G.
  split.
  - destruct (Nat.eqb_spec (length sr) (length h)); auto.
    destruct (Nat.eqb_spec (length sr) 1); [discriminate|lia].
  - destruct (Nat.eqb_spec (length lr) (length h)); auto.
    destruct (Nat.eqb_spec (length lr) 1);
      [rewrite orb_true_r in G; discriminate|lia].
Qed.

Lemma attach_scores_ok b h d sr lr s c :
  with_columns b
    (working h d ++ [("slm_response", SText sr); ("llm_response", SText lr)])
    [("scores", s)] = Ok c ->
  exists s',
    c = working h d ++ [("slm_response", SText sr); ("llm_response", SText lr);
                        ("scores", s')] /\
    len s' = length h /\ dtype s' = dtype s /\
    (len s = length h -> s' = s) /\
    (b = false -> len s = length h).
Proof.
  unfold with_columns.
  destruct (negb b && _ && _) eqn:G; [discriminate|].
  cbn [add_columns].
  destruct (with_column _ "scores" s) as [c1|] eqn:E1; [|discriminate].
  apply with_column_ok in E1; [|discriminate].
  destruct E1 as (s1 & -> & Hd1 & Hl1 & Hs1 & Ha1).
  intros H. injection H as <-.
  exists s1. simpl in Hl1, Hs1, Ha1.
  split; [reflexivity|]. split; [exact Hl1|]. split; [exact Hd1|].
  split; [exact Hs1|].
  intros ->. simpl in G. unfold unit_mismatch in G. simpl in G.
  destruct (Nat.eqb_spec (len s) (length h)); auto.
  destruct (Nat.eqb_spec (len s) 1); [discriminate|lia].
Qed.

Lemma attach_responses_aligned b h d sr lr :
  length sr = length h -> length lr = length h ->
  with_columns b (working h d)
    [("slm_response", SText sr); ("llm_response", SText lr)]
  = Ok (working h d ++ [("slm_response", SText sr); ("llm_response", SText lr)]).
Proof.
  intros Hs Hl. unfold with_columns.
  replace (existsb _ _) with false.
  2:{ simpl. unfold unit_mismatch. simpl.
      now rewrite Hs, Hl, Nat.eqb_refl, !andb_false_r. }
  rewrite andb_false_r. cbn [add_columns].
  rewrite with_column_aligned by exact Hs. simpl add_column_by_search.
  rewrite with_column_aligned by exact Hl. reflexivity.
Qed.

Lemma attach_scores_aligned b h d sr lr s :
  len s = length h ->
  with_columns b
    (working h d ++ [("slm_response", SText sr); ("llm_response", SText lr)])
    [("scores", s)]
  = Ok (working h d ++ [("slm_response", SText sr); ("llm_response", SText lr);
                        ("scores", s)]).
Proof.
  intros Hs. unfold with_columns.
  replace (existsb _ _) with false.
  2:{ simpl. unfold unit_mismatch.
      now rewrite Hs, Nat.eqb_refl, !andb_false_r. }
  rewrite andb_false_r. cbn [add_columns].
  rewrite with_column_aligned by exact Hs. reflexivity.
Qed.

(** What the attachments raise on misaligned columns. *)
Lemma attach_responses_error b h d sr lr e :
  attach_error b (length h) [length sr; length lr] = Some e ->
  with_columns b (working h d)
    [("slm_response", SText sr); ("llm_response", SText lr)] = Raise e.
Proof.
  unfold attach_error, with_columns, unit_mismatch.
  cbn [existsb snd len width working length Nat.eqb negb andb orb height].
  destruct b; cbn [negb andb].
  - destruct (Nat.eqb_spec (length sr) (length h)) as [Es|Es];
    destruct (Nat.eqb_spec (length sr) 1) as [Es1|Es1];
    destruct (Nat.eqb_spec (length lr) (length h)) as [El|El];
    destruct (Nat.eqb_spec (length lr) 1) as [El1|El1];
    cbn [negb andb orb]; intros H; try discriminate; injection H as <-;
    cbn [add_columns];
    try (rewrite (with_column_shape (working h d)) by (auto; discriminate);
         reflexivity);
    (destruct (with_column (working h d) "slm_response" (SText sr))
       as [c1|e1] eqn:E1;
     [ apply with_column_ok in E1; [|discriminate];
       destruct E1 as (s1 & -> & _ & Hl1 & _);
       rewrite with_column_shape;
       [reflexivity | discriminate | simpl; simpl in Hl1; lia | exact El1]
     | apply with_column_raise in E1; simpl in E1; destruct E1 as (-> & ? & ?);
       congruence ]).
  - destruct (Nat.eqb_spec (length sr) (length h)) as [Es|Es];
    destruct (Nat.eqb_spec (length sr) 1) as [Es1|Es1];
    destruct (Nat.eqb_spec (length lr) (length h)) as [El|El];
    destruct (Nat.eqb_spec (length lr) 1) as [El1|El1];
    cbn [negb andb orb]; intros H; try discriminate; injection H as <-;
    try reflexivity; cbn [add_columns];
    try (rewrite (with_column_shape (working h d)) by (auto; discriminate);
         reflexivity);
    (destruct (with_column (working h d) "slm_response" (SText sr))
       as [c1|e1] eqn:E1;
     [ apply with_column_ok in E1; [|discriminate];
       destruct E1 as (s1 & -> & _ & Hl1 & _);
       rewrite with_column_shape;
       [reflexivity | discriminate | simpl; simpl in Hl1; lia | exact El1]
     | apply with_column_raise in E1; simpl in E1; destruct E1 as (-> & ? & ?);
       congruence ]).
Qed.

Lemma attach_scores_error b h d sr lr s e :
  attach_error b (length h) [len s] = Some e ->
  with_columns b
    (working h d ++ [("slm_response", SText sr); ("llm_response", SText lr)])
    [("scores", s)] = Raise e.
Proof.
  unfold attach_error, with_columns, unit_mismatch.
  cbn [existsb snd width working app length Nat.eqb negb andb orb height len].
  destruct b; cbn [negb andb];
    destruct (Nat.eqb_spec (len s) (length h)) as [Es|Es];
    destruct (Nat.eqb_spec (len s) 1) as [Es1|Es1];
    cbn [negb andb orb]; intros H; try discriminate; injection H as <-;
    try reflexivity; cbn [add_columns];
    rewrite with_column_shape; try reflexivity; try discriminate; auto.
Qed.

End FrameFacts.

(** ** Facts about the expansion loop *)

Section ExpansionFacts.

Lemma fold_expansion_step l : forall gh gd,
  fold_left expansion_step l (gh, gd)
  = (gh ++ flat_map (fun x => [fst (slm_branch x); fst (llm_branch x)]) l,
     gd ++ flat_map (fun x => [snd (slm_branch x); snd (llm_branch x)]) l).
Proof.
  induction l as [|x l IH]; intros gh gd; simpl.
  - now rewrite !app_nil_r.
  - destruct x as [h [sr [lr [sq [lq [sd ld]]]]]].
    unfold expansion_step at 2. rewrite IH. simpl.
    now rewrite <- !app_assoc.
Qed.

Lemma expansion_flat_map h sr lr sq lq sd ld :
  expansion h sr lr sq lq sd ld
  = (flat_map (fun x => [fst (slm_branch x); fst (llm_branch x)])
       (zip7 h sr lr sq lq sd ld),
     flat_map (fun x => [snd (slm_branch x); snd (llm_branch x)])
       (zip7 h sr lr sq lq sd ld)).
Proof. unfold expansion. now rewrite fold_expansion_step. Qed.

Lemma flat_map_pair_length {A C} (f g : A -> C) (l : list A) :
  length (flat_map (fun x => [f x; g x]) l) = 2 * length l.
Proof. induction l; simpl; lia. Qed.

Lemma flat_map_pair_even {A C} (f g : A -> C) (l : list A) : forall i,
  nth_error (flat_map (fun x => [f x; g x]) l) (2 * i)
  = option_map f (nth_error l i).
Proof.
  induction l as [|x l IH]; intros [|i]; simpl; try reflexivity.
  replace (i + S (i + 0)) with (S (2 * i)) by lia. simpl. apply IH.
Qed.

Lemma flat_map_pair_odd {A C} (f g : A -> C) (l : list A) : forall i,
  nth_error (flat_map (fun x => [f x; g x]) l) (2 * i + 1)
  = option_map g (nth_error l i).
Proof.
  induction l as [|x l IH]; intros [|i]; simpl; try reflexivity.
  replace (i + S (i + 0) + 1) with (S (2 * i + 1)) by lia. simpl. apply IH.
Qed.

Lemma zip7_length {A B C D E F G} (a : list A) (b : list B) (c : list C)
  (d : list D) (e : list E) (f : list F) (g : list G) :
  length (zip7 a b c d e f g)
  = Nat.min (length a) (Nat.min (length b) (Nat.min (length c)
      (Nat.min (length d) (Nat.min (length e)
        (Nat.min (length f) (length g)))))).
Proof. unfold zip7. now rewrite !length_combine. Qed.

Lemma nth_error_combine {A B} (a : list A) : forall (b : list B) i x y,
  nth_error a i = Some x -> nth_error b i = Some y ->
  nth_error (combine a b) i = Some (x, y).
Proof.
  induction a as [|x0 a IH]; intros [|y0 b] [|i] x y Ha Hb;
    simpl in *; try discriminate.
  - congruence.
  - now apply IH.
Qed.

Lemma nth_error_zip7 {A B C D E F G} (a : list A) (b : list B) (c : list C)
  (d : list D) (e : list E) (f : list F) (g : list G) i xa xb xc xd xe xf xg :
  nth_error a i = Some xa -> nth_error b i = Some xb ->
  nth_error c i = Some xc -> nth_error d i = Some xd ->
  nth_error e i = Some xe -> nth_error f i = Some xf ->
  nth_error g i = Some xg ->
  nth_error (zip7 a b c d e f g) i = Some (xa, (xb, (xc, (xd, (xe, (xf, xg)))))).
Proof.
  intros. unfold zip7. repeat (apply nth_error_combine; [assumption|]).
  assumption.
Qed.

Lemma nth_error_combine_inv {A B} (a : list A) : forall (b : list B) i x y,
  nth_error (combine a b) i = Some (x, y) ->
  nth_error a i = Some x /\ nth_error b i = Some y.
Proof.
  induction a as [|x0 a IH]; intros [|y0 b] [|i] x y H;
    simpl in *; try discriminate.
  - injection H as <- <-. auto.
  - now apply IH.
Qed.

Lemma nth_error_zip7_inv {A B C D E F G} (a : list A) (b : list B) (c : list C)
  (d : list D) (e : list E) (f : list F) (g : list G) i xa xb xc xd xe xf xg :
  nth_error (zip7 a b c d e f g) i = Some (xa, (xb, (xc, (xd, (xe, (xf, xg)))))) ->
  nth_error a i = Some xa /\ nth_error b i = Some xb /\
  nth_error c i = Some xc /\ nth_error d i = Some xd /\
  nth_error e i = Some xe /\ nth_error f i = Some xf /\
  nth_error g i = Some xg.
Proof.
  unfold zip7. intros H.
  repeat (apply nth_error_combine_inv in H; destruct H as [? H];
          split; [assumption|]).
  assumption.
Qed.

Lemma in_zip7_documents {A B C D E F G} (a : list A) (b : list B) (c : list C)
  (d : list D) (e : list E) (f : list F) (g : list G) xa xb xc xd xe xf xg :
  In (xa, (xb, (xc, (xd, (xe, (xf, xg)))))) (zip7 a b c d e f g) ->
  In xf f /\ In xg g.
Proof.
  unfold zip7. intros H.
  do 5 apply in_combine_r in H.
  split; [eapply in_combine_l | eapply in_combine_r]; exact H.
Qed.

Lemma expansion_length h sr lr sq lq sd ld :
  length (fst (expansion h sr lr sq lq sd ld))
  = 2 * length (zip7 h sr lr sq lq sd ld) /\
  length (snd (expansion h sr lr sq lq sd ld))
  = 2 * length (zip7 h sr lr sq lq sd ld).
Proof.
  rewrite expansion_flat_map. simpl. now rewrite !flat_map_pair_length.
Qed.

End ExpansionFacts.

(** ** One round *)

Section RoundFacts.

Context (B : Backend).

Import DataFrame.

(** What a round that returns has done: the six calls, the completed frame
    stacked under the result set, the expansion as the next working set. *)
Lemma round_body_inv instruction aug h d w st' w' :
  round_body B instruction (aug, working h d) w = Ok (st', w') ->
  exists r c,
    round_calls B instruction h d w r w' /\
    completed h d r c /\
    vstack aug c = Ok (fst st') /\
    snd st' = working (fst (expand h r)) (snd (expand h r)).
Proof.
  unfold round_body, bind, lift.
  rewrite text_list_working, chat_list_working.
  destruct (build_chat_histories B
              (conversation_personalization_instruction instruction) d h w)
    as [[built w1]|] eqn:E1; [|discriminate].
  destruct (generate_conversations_response B (slm_model instruction) built w1)
    as [[sr w2]|] eqn:E2; [|discriminate].
  destruct (generate_conversations_response B (llm_model instruction) built w2)
    as [[lr w3]|] eqn:E3; [|discriminate].
  destruct (with_columns (broadcast B) (working h d) _) as [c1|] eqn:A1;
    [|discriminate].
  apply attach_responses_ok in A1.
  destruct A1 as (sr' & lr' & -> & Hsr & Hlr & Hsr' & Hlr' & Hb1).
  rewrite chat_list_working_app.
  destruct (comparison_score B (llm_model instruction) h lr sr w3)
    as [[sc w4]|] eqn:E4; [|discriminate].
  destruct (int_series (wide_integers B) sc) as [s0|] eqn:I; [|discriminate].
  destruct (with_columns (broadcast B) _ [("scores", s0)]) as [c2|] eqn:A2;
    [|discriminate].
  apply attach_scores_ok in A2.
  destruct A2 as (s & -> & Hs & Hds & Hs' & Hb2).
  rewrite chat_list_working_app, text_list_working_app.
  destruct (generate_next_conversation B (llm_model instruction) h sr d
              (documents instruction) w4)
    as [[[sq sd] w5]|] eqn:E5; [|discriminate].
  destruct (generate_next_conversation B (slm_model instruction) h sr d
              (documents instruction) w5)
    as [[[lq ld] w6]|] eqn:E6; [|discriminate].
  destruct (expansion h sr lr sq lq sd ld) as [gh gd] eqn:Ex.
  match goal with
  | |- context [vstack aug ?c] => destruct (vstack aug c) as [aug'|] eqn:V
  end; [|discriminate].
  assert (Hlen : length gd = length gh).
  { pose proof (expansion_length h sr lr sq lq sd ld) as [L1 L2].
    rewrite Ex in L1, L2. simpl in L1, L2. lia. }
  fold (working gh gd). rewrite (of_dict_working gh gd Hlen).
  unfold ret. intros H. injection H as <- <-.
  eexists (mkRoundData B built sr lr sc sq sd lq ld), _.
  split; [|split; [|split]].
  - exists w1, w2, w3, w4, w5. simpl. auto 10.
  - exists sr', lr', s, s0. cbn [slm_responses llm_responses scores].
    split; [reflexivity|]. split; [exact Hsr|]. split; [exact Hlr|].
    split; [exact Hs|]. split; [exact Hsr'|]. split; [exact Hlr'|].
    split; [exact I|]. split; [exact Hds|]. split.
    + intros H. apply Hs'. now rewrite (int_series_len _ _ _ I).
    + intros Hb. destruct (Hb1 Hb) as [? ?]. specialize (Hb2 Hb).
      rewrite (int_series_len _ _ _ I) in Hb2. auto.
  - exact V.
  - unfold expand. simpl. now rewrite Ex.
Qed.

(** A completed frame that stacks under a result set is a scored frame: its
    scores fit 64 bits, and it holds the collaborators' arrays wherever
    these have the length of the working set. *)
Lemma completed_stacked instruction h d w (r : RoundData B) w' c
  h0 d0 sr0 lr0 sc0 aug' :
  round_calls B instruction h d w r w' ->
  completed h d r c ->
  vstack (scored h0 d0 sr0 lr0 sc0) c = Ok aug' ->
  exists sr lr sc,
    c = scored h d sr lr sc /\
    aug' = scored (h0 ++ h) (d0 ++ d) (sr0 ++ sr) (lr0 ++ lr) (sc0 ++ sc) /\
    length sr = length h /\ length lr = length h /\ length sc = length h /\
    forallb in_int64 (scores r) = true /\
    (length (slm_responses r) = length h -> sr = slm_responses r) /\
    (length (llm_responses r) = length h -> lr = llm_responses r) /\
    (length (scores r) = length h -> sc = scores r) /\
    (broadcast B = false ->
     length (slm_responses r) = length h /\
     length (llm_responses r) = length h /\
     length (scores r) = length h).
Proof.
  intros _ (sr & lr & s & s0 & -> & Hsr & Hlr & Hs & Hsr' & Hlr' & I & Hd
            & Hs' & Hb) V.
  destruct s as [| |sc|]; try discriminate.
  simpl in V. injection V as <-. simpl in Hs.
  simpl in Hd. symmetry in Hd.
  destruct (int_series_int64 _ _ _ I Hd) as [Hr ->].
  exists sr, lr, sc. repeat split; auto.
  - intros H. specialize (Hs' H). congruence.
  - now apply Hb.
  - now apply Hb.
  - now apply Hb.
Qed.

(** Conversely, six calls whose response and score arrays are as long as
    the working set, with scores that fit 64 bits, make the round return. *)
Lemma round_body_run instruction h d w r w' h0 d0 sr0 lr0 sc0 :
  round_calls B instruction h d w r w' ->
  length (slm_responses r) = length h ->
  length (llm_responses r) = length h ->
  length (scores r) = length h ->
  forallb in_int64 (scores r) = true ->
  round_body B instruction (scored h0 d0 sr0 lr0 sc0, working h d) w
  = Ok ((scored (h0 ++ h) (d0 ++ d) (sr0 ++ slm_responses r)
                (lr0 ++ llm_responses r) (sc0 ++ scores r),
         working (fst (expand h r)) (snd (expand h r))), w').
Proof.
  intros (w1 & w2 & w3 & w4 & w5 & E1 & E2 & E3 & E4 & E5 & E6) Hsr Hlr Hsc Hr.
  unfold round_body, bind, lift.
  rewrite text_list_working, chat_list_working.
  rewrite E1, E2, E3.
  rewrite (attach_responses_aligned _ h d _ _ Hsr Hlr).
  rewrite chat_list_working_app, E4.
  rewrite (int_series_in_range _ _ Hr).
  rewrite (attach_scores_aligned _ h d _ _ (SInt (scores r)) Hsc).
  rewrite chat_list_working_app, text_list_working_app.
  rewrite E5, E6. unfold expand.
  destruct (expansion h _ _ _ _ _ _) as [gh gd] eqn:Ex.
  change (working h d ++ _) with
    (scored h d (slm_responses r) (llm_responses r) (scores r)).
  rewrite vstack_scored.
  assert (Hlen : length gd = length gh).
  { pose proof (expansion_length h (slm_responses r) (llm_responses r)
                  (slm_questions r) (llm_questions r)
                  (slm_documents r) (llm_documents r)) as [L1 L2].
    rewrite Ex in L1, L2. simpl in L1, L2. lia. }
  fold (working gh gd). rewrite (of_dict_working gh gd Hlen).
  reflexivity.
Qed.

(** The calls of a round are determined by the working set and the world:
    two descriptions of them agree. *)
Lemma round_calls_functional instruction h d w (r r' : RoundData B) w1 w2 :
  round_calls B instruction h d w r w1 ->
  round_calls B instruction h d w r' w2 ->
  slm_responses r' = slm_responses r /\
  llm_responses r' = llm_responses r /\
  scores r' = scores r /\
  expand h r' = expand h r /\ w2 = w1.
Proof.
  intros (a1 & a2 & a3 & a4 & a5 & A1 & A2 & A3 & A4 & A5 & A6)
         (b1 & b2 & b3 & b4 & b5 & B1 & B2 & B3 & B4 & B5 & B6).
  rewrite A1 in B1. injection B1 as Hb <-. rewrite <- Hb in *.
  rewrite A2 in B2. injection B2 as Hs <-. rewrite <- Hs in *.
  rewrite A3 in B3. injection B3 as Hl <-. rewrite <- Hl in *.
  rewrite A4 in B4. injection B4 as Hc <-.
  rewrite A5 in B5. injection B5 as Hq Hd <-.
  rewrite A6 in B6. injection B6 as Hq' Hd' <-.
  unfold expand. rewrite <- Hq, <- Hd, <- Hq', <- Hd', <- Hs, <- Hl.
  auto.
Qed.

End RoundFacts.

(** ** Seeding and the round loop *)

Section LoopFacts.

Context (B : Backend).

Import DataFrame.

Lemma seed_document_inv instruction h d document w tmp w' :
  seed_document B instruction (working h d) document w = Ok (tmp, w') ->
  exists chats,
    tmp = working (h ++ chats) (d ++ repeat document (length chats)).
Proof.
  unfold seed_document, bind, lift.
  destruct (build_knowledge_instruction B _ document w) as [[bi w1]|];
    [|discriminate].
  destruct (generate_conversation_starter B _ _ bi None w1) as [[chats w2]|];
    [|discriminate].
  fold (working chats (repeat document (length chats))).
  rewrite of_dict_working by apply repeat_length.
  rewrite vstack_working. intros H. injection H as <- <-.
  now exists chats.
Qed.

(** The seeded working set is well formed and every document in it is one
    of the documents seeded from. *)
Lemma seed_inv instruction docs : forall h d w tmp w',
  length d = length h ->
  seed B instruction docs (working h d) w = Ok (tmp, w') ->
  exists h' d',
    tmp = working (h ++ h') (d ++ d') /\ length d' = length h' /\
    Forall (fun x => In x docs) d'.
Proof.
  induction docs as [|document docs IH]; intros h d w tmp w' Hlen; simpl.
  - unfold ret. intros H. injection H as <- <-.
    exists [], []. now rewrite !app_nil_r.
  - unfold bind at 1.
    destruct (seed_document B instruction (working h d) document w)
      as [[tmp1 w1]|] eqn:E; [|discriminate].
    apply seed_document_inv in E. destruct E as (chats & ->).
    intros H. apply IH in H.
    2:{ rewrite !length_app, repeat_length. lia. }
    destruct H as (h' & d' & -> & Hl & Hin).
    exists (chats ++ h'), (repeat document (length chats) ++ d').
    rewrite <- !app_assoc. repeat split.
    + rewrite !length_app, repeat_length. lia.
    + apply Forall_app. split.
      * apply Forall_forall. intros x Hx. apply repeat_spec in Hx. subst.
        now left.
      * eapply Forall_impl; [|exact Hin]. intros x Hx. now right.
Qed.

(** The loop run once more is the loop followed by one more body. *)
Lemma rounds_snoc instruction n : forall st w,
  rounds B instruction (S n) st w
  = match rounds B instruction n st w with
    | Ok (st', w') => round_body B instruction st' w'
    | Raise e => Raise e
    end.
Proof.
  induction n as [|n IH]; intros st w.
  - simpl. unfold bind, ret.
    destruct (round_body B instruction st w) as [[st' w']|]; reflexivity.
  - change (rounds B instruction (S (S n)) st w)
      with (bind (round_body B instruction st)
                 (fun st' => rounds B instruction (S n) st') w).
    change (rounds B instruction (S n) st w)
      with (bind (round_body B instruction st)
                 (fun st' => rounds B instruction n st') w).
    unfold bind.
    destruct (round_body B instruction st w) as [[st' w']|]; [|reflexivity].
    apply IH.
Qed.

Lemma pipeline_rounds_snoc instruction n w :
  pipeline_rounds B instruction (S n) w
  = match pipeline_rounds B instruction n w with
    | Ok (st', w') => round_body B instruction st' w'
    | Raise e => Raise e
    end.
Proof.
  unfold pipeline_rounds, bind.
  destruct (seed B instruction _ _ w) as [[tmp w1]|]; [|reflexivity].
  apply rounds_snoc.
Qed.

(** One returning round from a well-formed state. *)
Lemma round_body_step instruction aug tmp w aug' tmp' w' :
  result_frame aug -> working_frame tmp ->
  round_body B instruction (aug, tmp) w = Ok ((aug', tmp'), w') ->
  exists h d r c,
    tmp = working h d /\ length d = length h /\
    round_calls B instruction h d w r w' /\
    scored_from tmp c /\ completed h d r c /\
    vstack aug c = Ok aug' /\
    tmp' = working (fst (expand h r)) (snd (expand h r)) /\
    height aug' = height aug + height tmp /\
    result_frame aug' /\ working_frame tmp'.
Proof.
  intros (h0 & d0 & sr0 & lr0 & sc0 & -> & L1 & L2 & L3 & L4)
         (h & d & -> & Hd) H.
  apply round_body_inv in H. destruct H as (r & c & Hc & Hcomp & Hv & Ht).
  simpl in Hv, Ht.
  destruct (completed_stacked B _ _ _ _ _ _ _ _ _ _ _ _ _ Hc Hcomp Hv)
    as (sr & lr & sc & -> & -> & Hsr & Hlr & Hsc & _).
  exists h, d, r, (scored h d sr lr sc).
  repeat split; auto.
  - exists h, d, sr, lr, sc. auto 10.
  - simpl. now rewrite length_app.
  - exists (h0 ++ h), (d0 ++ d), (sr0 ++ sr), (lr0 ++ lr), (sc0 ++ sc).
    rewrite !length_app. repeat split; lia.
  - exists (fst (expand h r)), (snd (expand h r)). split; [exact Ht|].
    unfold expand.
    pose proof (expansion_length h (slm_responses r) (llm_responses r)
                  (slm_questions r) (llm_questions r)
                  (slm_documents r) (llm_documents r)) as [E1 E2]. lia.
Qed.

Lemma empty_result_frame : result_frame (of_schema augmented_schema).
Proof. exists [], [], [], [], []. repeat split. Qed.

Lemma rounds_wf instruction n : forall aug tmp w aug' tmp' w',
  result_frame aug -> working_frame tmp ->
  rounds B instruction n (aug, tmp) w = Ok ((aug', tmp'), w') ->
  result_frame aug' /\ working_frame tmp'.
Proof.
  induction n as [|n IH]; intros aug tmp w aug' tmp' w' Ha Ht; cbn [rounds].
  - unfold ret. intros H. injection H as <- <- <-. auto.
  - unfold bind.
    destruct (round_body B instruction (aug, tmp) w) as [[[aug1 tmp1] w1]|] eqn:E;
      [|discriminate].
    apply round_body_step in E; auto.
    destruct E as (h & d & r & c & _ & _ & _ & _ & _ & _ & _ & _ & Ha1 & Ht1).
    apply IH; auto.
Qed.

(** Every state the pipeline reaches holds a well-formed result set and a
    well-formed working set. *)
Lemma pipeline_rounds_wf instruction n w aug tmp w' :
  pipeline_rounds B instruction n w = Ok ((aug, tmp), w') ->
  result_frame aug /\ working_frame tmp.
Proof.
  unfold pipeline_rounds, bind.
  destruct (seed B instruction _ _ w) as [[tmp0 w0]|] eqn:E; [|discriminate].
  change (of_schema temporary_schema) with (working [] []) in E.
  apply seed_inv in E; [|reflexivity].
  destruct E as (h' & d' & -> & Hl & _). simpl.
  apply rounds_wf; [apply empty_result_frame|].
  now exists h', d'.
Qed.

End LoopFacts.

(** ** Two runs at the edges of the data-frame engine *)

(** Aligned scores of [2 ^ 63] are attached as a column that is not [Int64];
    the round fails when the completed working set is stacked under the
    result set. *)
Lemma score_beyond_int64_raises_schema_error :
  knowledge_pipeline Edge.big_backend (Stub.instruction ["doc1"] 1 1) 0
  = Raise SchemaError.
Proof. reflexivity. Qed.

(** A single response for a working set of two conversations is refused by
    a release that does not broadcast, and not with a shape error. *)
Lemma one_element_response_raises_invalid_operation :
  knowledge_pipeline Edge.single_backend (Stub.instruction ["doc1"] 2 1) 0
  = Raise InvalidOperationError.
Proof. reflexivity. Qed.

(** ** The stub collaborators are aligned *)

Lemma stub_backend_aligned : Aligned Stub.backend.
Proof.
  constructor; simpl.
  - intros i d h w. eexists _, _. split; [reflexivity|]. apply length_map.
  - intros m built w. eexists _, _. split; [reflexivity|]. apply length_map.
  - intros m h lr sr w. eexists _, _. split; [reflexivity|]. apply length_map.
  - intros m h rs d bank w. eexists _, _, _. split; [reflexivity|].
    rewrite !length_map, length_seq. auto.
Qed.

(** With aligned collaborators the six calls of a round all return, with
    arrays as long as the working set. *)
Lemma aligned_round_calls (B : Backend) (HA : Aligned B)
  (instruction : KnowledgeParameter (Model B)) h d w :
  exists r w',
    round_calls B instruction h d w r w' /\
    length (slm_responses r) = length h /\
    length (llm_responses r) = length h /\
    length (scores r) = length h /\
    length (slm_questions r) = length h /\
    length (slm_documents r) = length h /\
    length (llm_questions r) = length h /\
    length (llm_documents r) = length h.
Proof.
  destruct (aligned_build B HA
              (conversation_personalization_instruction instruction) d h w)
    as (built & w1 & E1 & L1).
  destruct (aligned_response B HA (slm_model instruction) built w1)
    as (sr & w2 & E2 & L2).
  destruct (aligned_response B HA (llm_model instruction) built w2)
    as (lr & w3 & E3 & L3).
  destruct (aligned_score B HA (llm_model instruction) h lr sr w3)
    as (sc & w4 & E4 & L4).
  destruct (aligned_next B HA (llm_model instruction) h sr d
              (documents instruction) w4) as (sq & sd & w5 & E5 & L5 & L5').
  destruct (aligned_next B HA (slm_model instruction) h sr d
              (documents instruction) w5) as (lq & ld & w6 & E6 & L6 & L6').
  exists (mkRoundData B built sr lr sc sq sd lq ld), w6. simpl.
  split; [exists w1, w2, w3, w4, w5; auto 10|].
  repeat split; lia.
Qed.

(** ** The claims *)

(** C1. Whenever [knowledge_pipeline] returns, the frame it returns is the
    working-set component of the final loop state, a two-column frame of
    chat histories and documents, and not the accumulated result set; when
    at least one round ran, it is the expansion computed by the last round
    from that round's collaborator outputs. (With no round to run it is the
    seeded working set.) *)
Theorem knowledge_pipeline_returns_working_set (B : Backend)
  (instruction : KnowledgeParameter (Model B)) (w w' : World B)
  (df : DataFrame.t) :
  knowledge_pipeline B instruction w = Ok (df, w') ->
  exists aug,
    pipeline_state B instruction w = Ok ((aug, df), w') /\
    result_frame aug /\ working_frame df /\
    DataFrame.column_names df = ["chat_history"; "document"] /\
    df <> aug /\
    ((0 < max_conversations instruction)%Z ->
     exists aug0 h d w0 r,
       pipeline_rounds B instruction
         (Z.to_nat (max_conversations instruction) - 1) w
       = Ok ((aug0, working h d), w0) /\
       round_calls B instruction h d w0 r w' /\
       df = working (fst (expand h r)) (snd (expand h r))).
Proof.
  unfold knowledge_pipeline, bind.
  destruct (pipeline_state B instruction w) as [[[aug tmp] w1]|] eqn:E;
    [|discriminate].
  unfold ret. intros H. injection H as <- <-.
  exists aug. split; [reflexivity|].
  pose proof (pipeline_rounds_wf B _ _ _ _ _ _ E) as [Ha Ht].
  split; [exact Ha|]. split; [exact Ht|].
  destruct Ht as (h & d & -> & Hd).
  destruct Ha as (h0 & d0 & sr0 & lr0 & sc0 & -> & _).
  split; [reflexivity|]. split; [discriminate|].
  intros Hpos. unfold pipeline_state in E.
  destruct (Z.to_nat (max_conversations instruction)) as [|k] eqn:Ek; [lia|].
  rewrite pipeline_rounds_snoc in E.
  replace (S k - 1) with k by lia.
  destruct (pipeline_rounds B instruction k w) as [[[aug1 tmp1] w2]|] eqn:Ep;
    [|discriminate].
  pose proof (pipeline_rounds_wf B _ _ _ _ _ _ Ep) as [Ha1 Ht1].
  apply round_body_step in E; auto.
  destruct E as (h1 & d1 & r & c & -> & _ & Hc & _ & _ & _ & He & _).
  exists aug1, h1, d1, w2, r. auto.
Qed.

Lemma knowledge_pipeline_returns_working_set_witness :
  knowledge_pipeline Stub.backend (Stub.instruction ["doc1"] 1 1) 0
  = Ok (working
          [[user "start: doc1"; assistant "SLM answer";
            user "LLM asks after SLM answer"];
           [user "start: doc1"; assistant "LLM answer";
            user "SLM asks after SLM answer"]]
          ["doc1"; "doc1"], 8) /\
  exists aug,
    pipeline_state Stub.backend (Stub.instruction ["doc1"] 1 1) 0
    = Ok ((aug,
           working
             [[user "start: doc1"; assistant "SLM answer";
               user "LLM asks after SLM answer"];
              [user "start: doc1"; assistant "LLM answer";
               user "SLM asks after SLM answer"]]
             ["doc1"; "doc1"]), 8).
Proof.
  split; [reflexivity|].
  destruct (knowledge_pipeline_returns_working_set Stub.backend
              (Stub.instruction ["doc1"] 1 1) 0 8 _ eq_refl)
    as (aug & H & _).
  exists aug. exact H.
Defined.

(** C2. The documented return value has the five columns [chat_history],
    [document], [slm_response], [llm_response] and [scores]; the frame the
    code returns has the first two only. Run on one document with one
    starter and one round, the returned frame has no response and no score
    column, while the result set the function drops has all five. *)
Theorem returned_frame_lacks_response_and_score_columns :
  exists aug df w',
    pipeline_state Stub.backend (Stub.instruction ["doc1"] 1 1) 0
    = Ok ((aug, df), w') /\
    knowledge_pipeline Stub.backend (Stub.instruction ["doc1"] 1 1) 0
    = Ok (df, w') /\
    DataFrame.column_names df = ["chat_history"; "document"] /\
    DataFrame.get_column df "slm_response" = Raise ColumnNotFoundError /\
    DataFrame.get_column df "llm_response" = Raise ColumnNotFoundError /\
    DataFrame.get_column df "scores" = Raise ColumnNotFoundError /\
    DataFrame.column_names aug
    = ["chat_history"; "document"; "slm_response"; "llm_response"; "scores"].
Proof.
  eexists _, _, _. split; [reflexivity|]. repeat split.
Qed.

(** The stub collaborators' six calls of a round. *)
Lemma stub_round_calls (i : KnowledgeParameter string) h d (w : nat) :
  round_calls Stub.backend i h d w (stub_round_data i h) (6 + w).
Proof.
  exists (1 + w), (2 + w), (3 + w), (4 + w), (5 + w).
  repeat split; reflexivity.
Qed.

(** C3. In every round of the loop whose collaborator calls return arrays
    as long as the working set, the expansion step produces exactly twice
    as many chat histories and documents as the working set has records,
    and the working set of any such round that returns is that expansion:
    twice the records. The round does return when, besides, the scores fit
    an [Int64] column (if they do not, the expansion is computed all the
    same and the round then fails stacking the completed frame, so that no
    working set follows). *)
Theorem expansion_doubles_working_set (B : Backend)
  (instruction : KnowledgeParameter (Model B)) (n : nat)
  (aug tmp : DataFrame.t) (w w1 w2 : World B)
  (h : list ChatHistory) (d : list string) (r : RoundData B) :
  pipeline_rounds B instruction n w = Ok ((aug, tmp), w1) ->
  tmp = working h d ->
  round_calls B instruction h d w1 r w2 ->
  length (slm_responses r) = length h ->
  length (llm_responses r) = length h ->
  length (scores r) = length h ->
  length (slm_questions r) = length h ->
  length (slm_documents r) = length h ->
  length (llm_questions r) = length h ->
  length (llm_documents r) = length h ->
  length (fst (expand h r)) = 2 * DataFrame.height tmp /\
  length (snd (expand h r)) = 2 * DataFrame.height tmp /\
  (forall aug' tmp' w',
      round_body B instruction (aug, tmp) w1 = Ok ((aug', tmp'), w') ->
      tmp' = working (fst (expand h r)) (snd (expand h r)) /\
      DataFrame.height tmp' = 2 * DataFrame.height tmp) /\
  (forallb DataFrame.in_int64 (scores r) = true ->
   exists aug',
     round_body B instruction (aug, tmp) w1
     = Ok ((aug', working (fst (expand h r)) (snd (expand h r))), w2) /\
     pipeline_rounds B instruction (S n) w
     = Ok ((aug', working (fst (expand h r)) (snd (expand h r))), w2)).
Proof.
  intros E -> Hc Lsr Llr Lsc Lsq Lsd Llq Lld.
  assert (Hz : length (zip7 h (slm_responses r) (llm_responses r)
                         (slm_questions r) (llm_questions r)
                         (slm_documents r) (llm_documents r)) = length h).
  { rewrite zip7_length. lia. }
  assert (H1 : length (fst (expand h r)) = 2 * length h).
  { unfold expand. rewrite (proj1 (expansion_length _ _ _ _ _ _ _)). lia. }
  assert (H2 : length (snd (expand h r)) = 2 * length h).
  { unfold expand. rewrite (proj2 (expansion_length _ _ _ _ _ _ _)). lia. }
  split; [exact H1|]. split; [exact H2|]. split.
  - intros aug' tmp' w' Hr. apply round_body_inv in Hr.
    destruct Hr as (r' & c & Hc' & _ & _ & Ht). simpl in Ht.
    destruct (round_calls_functional B _ _ _ _ _ _ _ _ Hc Hc')
      as (_ & _ & _ & He & _).
    rewrite He in Ht. subst tmp'. split; [reflexivity|]. exact H1.
  - intros Hr.
    pose proof (pipeline_rounds_wf B _ _ _ _ _ _ E) as [Wa _].
    destruct Wa as (h0 & d0 & sr0 & lr0 & sc0 & -> & _).
    pose proof (round_body_run B instruction h d w1 r w2 h0 d0 sr0 lr0 sc0
                  Hc Lsr Llr Lsc Hr) as Hrun.
    eexists. split; [exact Hrun|].
    rewrite pipeline_rounds_snoc, E. exact Hrun.
Qed.

Lemma expansion_doubles_working_set_witness :
  length (fst (expand [[user "start: doc1"]; [user "start: doc1"];
                       [user "start: doc2"]; [user "start: doc2"]]
                 (stub_round_data (Stub.instruction ["doc1"; "doc2"] 2 3)
                    [[user "start: doc1"]; [user "start: doc1"];
                     [user "start: doc2"]; [user "start: doc2"]])))
  = 2 * 4 /\
  exists aug' tmp',
    pipeline_rounds Stub.backend (Stub.instruction ["doc1"; "doc2"] 2 3) 1 0
    = Ok ((aug', tmp'), 10) /\
    DataFrame.height tmp' = 2 * 4.
Proof.
  destruct (expansion_doubles_working_set Stub.backend
              (Stub.instruction ["doc1"; "doc2"] 2 3) 0
              (DataFrame.of_schema augmented_schema)
              (working [[user "start: doc1"]; [user "start: doc1"];
                        [user "start: doc2"]; [user "start: doc2"]]
                       ["doc1"; "doc1"; "doc2"; "doc2"])
              0 4 10
              [[user "start: doc1"]; [user "start: doc1"];
               [user "start: doc2"]; [user "start: doc2"]]
              ["doc1"; "doc1"; "doc2"; "doc2"]
              (stub_round_data (Stub.instruction ["doc1"; "doc2"] 2 3)
                 [[user "start: doc1"]; [user "start: doc1"];
                  [user "start: doc2"]; [user "start: doc2"]])
              eq_refl eq_refl (stub_round_calls _ _ _ 4)
              eq_refl eq_refl eq_refl eq_refl eq_refl eq_refl eq_refl)
    as (H1 & _ & _ & H4).
  split; [exact H1|].
  destruct (H4 eq_refl) as (aug' & _ & Hp).
  eexists _, _. split; [exact Hp|]. exact H1.
Defined.

(** C4. In every round of the loop that returns, the next working set holds
    exactly two records for each conversation the expansion loop visits
    (each index below the length of the zip; every conversation of the
    working set when the collaborators' arrays are as long as it): the
    records at [2 i] and [2 i + 1] exist and each is the parent's chat
    history followed by exactly two turns, an [assistant] turn and then a
    [user] turn, so its length is the parent's plus two. *)
Theorem successors_extend_parent (B : Backend)
  (instruction : KnowledgeParameter (Model B)) (n : nat)
  (aug tmp aug' tmp' : DataFrame.t) (w w1 w2 : World B) :
  pipeline_rounds B instruction n w = Ok ((aug, tmp), w1) ->
  pipeline_rounds B instruction (S n) w = Ok ((aug', tmp'), w2) ->
  exists h d r h',
    tmp = working h d /\
    DataFrame.chat_list tmp' "chat_history" = Ok h' /\
    round_calls B instruction h d w1 r w2 /\
    length h' = 2 * length (zip7 h (slm_responses r) (llm_responses r)
                              (slm_questions r) (llm_questions r)
                              (slm_documents r) (llm_documents r)) /\
    (forall i,
        i < length (zip7 h (slm_responses r) (llm_responses r)
                      (slm_questions r) (llm_questions r)
                      (slm_documents r) (llm_documents r)) ->
        exists parent c1 c2 t1 t2 t3 t4,
          nth_error h i = Some parent /\
          nth_error h' (2 * i) = Some c1 /\
          nth_error h' (2 * i + 1) = Some c2 /\
          c1 = parent ++ [t1; t2] /\ c2 = parent ++ [t3; t4] /\
          role t1 = "assistant" /\ role t2 = "user" /\
          role t3 = "assistant" /\ role t4 = "user" /\
          length c1 = length parent + 2 /\
          length c2 = length parent + 2) /\
    (length (slm_responses r) = length h ->
     length (llm_responses r) = length h ->
     length (slm_questions r) = length h ->
     length (llm_questions r) = length h ->
     length (slm_documents r) = length h ->
     length (llm_documents r) = length h ->
     length (zip7 h (slm_responses r) (llm_responses r)
               (slm_questions r) (llm_questions r)
               (slm_documents r) (llm_documents r)) = length h).
Proof.
  intros E ES.
  rewrite pipeline_rounds_snoc, E in ES.
  pose proof (pipeline_rounds_wf B _ _ _ _ _ _ E) as [Ha Ht].
  destruct Ht as (h & d & -> & Hd).
  apply round_body_inv in ES. destruct ES as (r & c & Hc & _ & _ & Ht').
  simpl in Ht'. subst tmp'.
  exists h, d, r, (fst (expand h r)).
  split; [reflexivity|]. split; [reflexivity|]. split; [exact Hc|].
  unfold expand. split; [apply expansion_length|]. split.
  - intros i Hi.
    destruct (nth_error (zip7 h (slm_responses r) (llm_responses r)
                           (slm_questions r) (llm_questions r)
                           (slm_documents r) (llm_documents r)) i)
      as [[p [sr [lr [sq [lq [sd ld]]]]]]|] eqn:Ez.
    2:{ apply nth_error_None in Ez. lia. }
    pose proof (nth_error_zip7_inv _ _ _ _ _ _ _ _ _ _ _ _ _ _ _ Ez) as (Hp & _).
    exists p, (p ++ [assistant sr; user sq]), (p ++ [assistant lr; user lq]),
      (assistant sr), (user sq), (assistant lr), (user lq).
    rewrite expansion_flat_map. cbn [fst].
    rewrite flat_map_pair_even, flat_map_pair_odd, Ez.
    rewrite !length_app. simpl. auto 15.
  - intros L1 L2 L3 L4 L5 L6. rewrite zip7_length. lia.
Qed.

Lemma successors_extend_parent_witness :
  exists h d r h',
    working [[user "start: doc1"]] ["doc1"] = working h d /\
    DataFrame.chat_list
      (working
         [[user "start: doc1"; assistant "SLM answer";
           user "LLM asks after SLM answer"];
          [user "start: doc1"; assistant "LLM answer";
           user "SLM asks after SLM answer"]]
         ["doc1"; "doc1"]) "chat_history" = Ok h' /\
    round_calls Stub.backend (Stub.instruction ["doc1"] 1 2) h d 2 r 8 /\
    length h' = 2 * length (zip7 h (slm_responses r) (llm_responses r)
                              (slm_questions r) (llm_questions r)
                              (slm_documents r) (llm_documents r)) /\
    (forall i,
        i < length (zip7 h (slm_responses r) (llm_responses r)
                      (slm_questions r) (llm_questions r)
                      (slm_documents r) (llm_documents r)) ->
        exists parent c1 c2 t1 t2 t3 t4,
          nth_error h i = Some parent /\
          nth_error h' (2 * i) = Some c1 /\
          nth_error h' (2 * i + 1) = Some c2 /\
          c1 = parent ++ [t1; t2] /\ c2 = parent ++ [t3; t4] /\
          role t1 = "assistant" /\ role t2 = "user" /\
          role t3 = "assistant" /\ role t4 = "user" /\
          length c1 = length parent + 2 /\
          length c2 = length parent + 2) /\
    (length (slm_responses r) = length h ->
     length (llm_responses r) = length h ->
     length (slm_questions r) = length h ->
     length (llm_questions r) = length h ->
     length (slm_documents r) = length h ->
     length (llm_documents r) = length h ->
     length (zip7 h (slm_responses r) (llm_responses r)
               (slm_questions r) (llm_questions r)
               (slm_documents r) (llm_documents r)) = length h).
Proof.
  exact (successors_extend_parent Stub.backend
           (Stub.instruction ["doc1"] 1 2) 0 _ _ _ _ 0 2 8 eq_refl eq_refl).
Defined.

(** C10, as the code has it. In every round of the loop that returns, each
    conversation the zip of the seven arrays reaches (each index [i] below
    the length of the shortest of them; every index of the working set when
    the collaborators' arrays are as long as it) has its SLM-track
    successor, with the SLM-track document, at index [2 i] of the next
    working set and its LLM-track successor at index [2 i + 1]: adjacent,
    the SLM branch first, in the order of the parents. The next working set
    holds nothing else, so a conversation at or beyond the length of the
    shortest array has no successor. *)
Theorem branches_adjacent_slm_first (B : Backend)
  (instruction : KnowledgeParameter (Model B)) (n : nat)
  (aug tmp aug' tmp' : DataFrame.t) (w w1 w2 : World B) :
  pipeline_rounds B instruction n w = Ok ((aug, tmp), w1) ->
  pipeline_rounds B instruction (S n) w = Ok ((aug', tmp'), w2) ->
  exists h d r h' d' m,
    tmp = working h d /\ tmp' = working h' d' /\
    round_calls B instruction h d w1 r w2 /\
    m = Nat.min (length h)
          (Nat.min (length (slm_responses r))
             (Nat.min (length (llm_responses r))
                (Nat.min (length (slm_questions r))
                   (Nat.min (length (llm_questions r))
                      (Nat.min (length (slm_documents r))
                               (length (llm_documents r))))))) /\
    length h' = 2 * m /\ length d' = 2 * m /\
    (forall i, i < m ->
       exists parent sr lr sq lq sd ld,
         nth_error h i = Some parent /\
         nth_error (slm_responses r) i = Some sr /\
         nth_error (llm_responses r) i = Some lr /\
         nth_error (slm_questions r) i = Some sq /\
         nth_error (llm_questions r) i = Some lq /\
         nth_error (slm_documents r) i = Some sd /\
         nth_error (llm_documents r) i = Some ld /\
         nth_error h' (2 * i) = Some (parent ++ [assistant sr; user sq]) /\
         nth_error d' (2 * i) = Some sd /\
         nth_error h' (2 * i + 1) = Some (parent ++ [assistant lr; user lq]) /\
         nth_error d' (2 * i + 1) = Some ld) /\
    (forall i, m <= i ->
       nth_error h' (2 * i) = None /\ nth_error h' (2 * i + 1) = None).
Proof.
  intros E ES.
  rewrite pipeline_rounds_snoc, E in ES.
  pose proof (pipeline_rounds_wf B _ _ _ _ _ _ E) as [Ha Ht].
  destruct Ht as (h & d & -> & Hd).
  apply round_body_inv in ES. destruct ES as (r & c & Hc & _ & _ & Ht').
  simpl in Ht'. subst tmp'.
  exists h, d, r, (fst (expand h r)), (snd (expand h r)).
  eexists. split; [reflexivity|]. split; [reflexivity|]. split; [exact Hc|].
  split; [reflexivity|].
  rewrite <- zip7_length. unfold expand.
  split; [apply expansion_length|]. split; [apply expansion_length|]. split.
  - intros i Hi.
    destruct (nth_error (zip7 h (slm_responses r) (llm_responses r)
                           (slm_questions r) (llm_questions r)
                           (slm_documents r) (llm_documents r)) i)
      as [[p [sr [lr [sq [lq [sd ld]]]]]]|] eqn:Ez.
    2:{ apply nth_error_None in Ez. lia. }
    pose proof (nth_error_zip7_inv _ _ _ _ _ _ _ _ _ _ _ _ _ _ _ Ez)
      as (H1 & H2 & H3 & H4 & H5 & H6 & H7).
    exists p, sr, lr, sq, lq, sd, ld.
    rewrite expansion_flat_map. cbn [fst snd].
    rewrite !flat_map_pair_even, !flat_map_pair_odd, Ez. simpl. auto 15.
  - intros i Hi.
    pose proof (proj1 (expansion_length h (slm_responses r) (llm_responses r)
                         (slm_questions r) (llm_questions r)
                         (slm_documents r) (llm_documents r))) as Hl.
    split; apply nth_error_None; lia.
Qed.

Lemma branches_adjacent_slm_first_witness :
  exists h d r h' d' m,
    working [[user "start: doc1"]; [user "start: doc2"]] ["doc1"; "doc2"]
    = working h d /\
    working
      [[user "start: doc1"; assistant "SLM answer";
        user "LLM asks after SLM answer"];
       [user "start: doc1"; assistant "LLM answer";
        user "SLM asks after SLM answer"];
       [user "start: doc2"; assistant "SLM answer";
        user "LLM asks after SLM answer"];
       [user "start: doc2"; assistant "LLM answer";
        user "SLM asks after SLM answer"]]
      ["doc1"; "doc1"; "doc1"; "doc1"] = working h' d' /\
    round_calls Stub.backend (Stub.instruction ["doc1"; "doc2"] 1 1) h d 4 r 10 /\
    m = Nat.min (length h)
          (Nat.min (length (slm_responses r))
             (Nat.min (length (llm_responses r))
                (Nat.min (length (slm_questions r))
                   (Nat.min (length (llm_questions r))
                      (Nat.min (length (slm_documents r))
                               (length (llm_documents r))))))) /\
    length h' = 2 * m /\ length d' = 2 * m /\
    (forall i, i < m ->
       exists parent sr lr sq lq sd ld,
         nth_error h i = Some parent /\
         nth_error (slm_responses r) i = Some sr /\
         nth_error (llm_responses r) i = Some lr /\
         nth_error (slm_questions r) i = Some sq /\
         nth_error (llm_questions r) i = Some lq /\
         nth_error (slm_documents r) i = Some sd /\
         nth_error (llm_documents r) i = Some ld /\
         nth_error h' (2 * i) = Some (parent ++ [assistant sr; user sq]) /\
         nth_error d' (2 * i) = Some sd /\
         nth_error h' (2 * i + 1) = Some (parent ++ [assistant lr; user lq]) /\
         nth_error d' (2 * i + 1) = Some ld) /\
    (forall i, m <= i ->
       nth_error h' (2 * i) = None /\ nth_error h' (2 * i + 1) = None).
Proof.
  exact (branches_adjacent_slm_first Stub.backend
           (Stub.instruction ["doc1"; "doc2"] 1 1) 0 _ _ _ _ 0 4 10
           eq_refl eq_refl).
Defined.

(** C10 fails as stated: the continuation expander answers a working set of
    two conversations with one question and one document; the round
    returns, the next working set has the two successors of the first
    conversation at indices 0 and 1, and the conversation at index 1 has no
    successor at index 2 nor at index 3. *)
Lemma truncated_zip_leaves_conversation_without_successors :
  pipeline_rounds Short.backend (Stub.instruction ["doc1"] 2 1) 0 0
  = Ok ((DataFrame.of_schema augmented_schema,
         working [[user "start: doc1"]; [user "start: doc1"]]
                 ["doc1"; "doc1"]), 2) /\
  nth_error [[user "start: doc1"]; [user "start: doc1"]] 1
  = Some [user "start: doc1"] /\
  exists aug' h' d',
    pipeline_rounds Short.backend (Stub.instruction ["doc1"] 2 1) 1 0
    = Ok ((aug', working h' d'), 8) /\
    length h' = 2 /\
    nth_error h' (2 * 1) = None /\ nth_error h' (2 * 1 + 1) = None.
Proof.
  split; [reflexivity|]. split; [reflexivity|].
  eexists _, _, _. split; [reflexivity|]. repeat split.
Qed.

Lemma vstack_all_snoc a frames c :
  vstack_all a (frames ++ [c])
  = match vstack_all a frames with
    | Ok df => DataFrame.vstack df c
    | Raise e => Raise e
    end.
Proof. unfold vstack_all. now rewrite fold_left_app. Qed.

Lemma scored_from_height tmp c :
  scored_from tmp c -> DataFrame.height c = DataFrame.height tmp.
Proof. intros (h & d & sr & lr & sc & -> & -> & _). reflexivity. Qed.

(** C5. After [n] rounds the result set is the empty five-column frame with
    the completed working sets of rounds [0 .. n-1] stacked under it, each
    once and in order: its height is the sum of their heights, each of them
    is that round's working set with a response pair and a score for every
    record, and the result set after [k <= n] rounds is the stack of the
    first [k] of them, so later rounds only append. *)
Theorem result_set_accumulates (B : Backend)
  (instruction : KnowledgeParameter (Model B)) (n : nat)
  (aug tmp : DataFrame.t) (w w' : World B) :
  pipeline_rounds B instruction n w = Ok ((aug, tmp), w') ->
  exists frames : list DataFrame.t,
    length frames = n /\
    vstack_all (DataFrame.of_schema augmented_schema) frames = Ok aug /\
    DataFrame.height aug = list_sum (map DataFrame.height frames) /\
    forall k, k <= n ->
      exists aug_k tmp_k w_k,
        pipeline_rounds B instruction k w = Ok ((aug_k, tmp_k), w_k) /\
        vstack_all (DataFrame.of_schema augmented_schema) (firstn k frames)
        = Ok aug_k /\
        DataFrame.height aug_k
        = list_sum (map DataFrame.height (firstn k frames)) /\
        (forall c, nth_error frames k = Some c ->
                   scored_from tmp_k c /\
                   DataFrame.height c = DataFrame.height tmp_k).
Proof.
  revert aug tmp w'.
  induction n as [|n IH]; intros aug tmp w' E.
  - exists []. 
    assert (Ha : aug = DataFrame.of_schema augmented_schema).
    { unfold pipeline_rounds, bind in E.
      destruct (seed B instruction _ _ w) as [[tmp0 w0]|]; [|discriminate].
      simpl in E. unfold ret in E. now injection E as <- _ _. }
    subst aug. repeat split.
    intros k Hk. assert (k = 0) by lia. subst k.
    exists (DataFrame.of_schema augmented_schema), tmp, w'.
    repeat split; try exact E; try discriminate.
  - rewrite pipeline_rounds_snoc in E.
    destruct (pipeline_rounds B instruction n w) as [[[aug0 tmp0] w0]|] eqn:En;
      [|discriminate].
    destruct (IH aug0 tmp0 w0 eq_refl) as (frames & Hlen & Hall & Hh & Hk).
    pose proof (pipeline_rounds_wf B _ _ _ _ _ _ En) as [Ha Ht].
    pose proof (round_body_step B _ _ _ _ _ _ _ Ha Ht E)
      as (h & d & r & c & -> & Hd & _ & Hsc & _ & Hv & _ & Hht & _).
    pose proof (scored_from_height _ _ Hsc) as Hc.
    assert (Hall' : vstack_all (DataFrame.of_schema augmented_schema)
                      (frames ++ [c]) = Ok aug).
    { now rewrite vstack_all_snoc, Hall. }
    assert (Hh' : DataFrame.height aug
                  = list_sum (map DataFrame.height (frames ++ [c]))).
    { rewrite map_app, list_sum_app. simpl. lia. }
    exists (frames ++ [c]). split; [rewrite length_app; simpl; lia|].
    split; [exact Hall'|]. split; [exact Hh'|].
    intros k Hle.
    destruct (Nat.eq_dec k (S n)) as [-> | Hne].
    + exists aug, tmp, w'.
      rewrite pipeline_rounds_snoc, En.
      rewrite firstn_all2 by (rewrite length_app; simpl; lia).
      repeat split; auto;
        rewrite (proj2 (nth_error_None (frames ++ [c]) (S n))) in H
          by (rewrite length_app; simpl; lia); discriminate.
    + destruct (Hk k ltac:(lia)) as (aug_k & tmp_k & w_k & Ek & Hvk & Hhk & Hck).
      exists aug_k, tmp_k, w_k.
      rewrite firstn_app.
      replace (k - length frames) with 0 by lia.
      change (firstn 0 [c]) with (@nil DataFrame.t). rewrite app_nil_r.
      split; [exact Ek|]. split; [exact Hvk|]. split; [exact Hhk|].
      intros c0 Hc0.
      destruct (Nat.eq_dec k n) as [-> | Hkn].
      * rewrite nth_error_app2 in Hc0 by lia.
        replace (n - length frames) with 0 in Hc0 by lia.
        simpl in Hc0. injection Hc0 as <-.
        rewrite En in Ek. injection Ek as <- <- <-. auto.
      * rewrite nth_error_app1 in Hc0 by lia. auto.
Qed.

Lemma result_set_accumulates_witness :
  exists frames : list DataFrame.t,
    length frames = 2 /\
    vstack_all (DataFrame.of_schema augmented_schema) frames
    = Ok (scored
            [[user "start: doc1"];
             [user "start: doc1"; assistant "SLM answer";
              user "LLM asks after SLM answer"];
             [user "start: doc1"; assistant "LLM answer";
              user "SLM asks after SLM answer"]]
            ["doc1"; "doc1"; "doc1"]
            ["SLM answer"; "SLM answer"; "SLM answer"]
            ["LLM answer"; "LLM answer"; "LLM answer"]
            [1%Z; 1%Z; 1%Z]) /\
    3 = list_sum (map DataFrame.height frames).
Proof.
  destruct (result_set_accumulates Stub.backend
              (Stub.instruction ["doc1"] 1 2) 2 _ _ 0 14 eq_refl)
    as (frames & Hlen & Hall & Hh & _).
  exists frames. auto.
Defined.

(** ** Misaligned collaborator output *)

(** C6, as the code has it. The pipeline checks no length itself. When the
    chat-history builder and the two response calls of a round return, a
    response array of a length polars refuses for the working set makes
    [with_columns] raise: [InvalidOperationError] for a one-element array on
    a release that does not broadcast one-element series, [ShapeError] for
    any other length that is not the size of the working set. With aligned
    responses the same holds of the score array. With aligned responses and
    scores, the scores fitting [Int64], the round returns whatever the
    lengths of the continuation expander's four arrays: the zip stops at
    the shortest and the next working set has twice that minimum. *)
Theorem alignment_checked_only_by_frame (B : Backend)
  (instruction : KnowledgeParameter (Model B))
  (h0 : list ChatHistory) (d0 sr0 lr0 : list string) (sc0 : list Z)
  (h : list ChatHistory) (d : list string) (w w1 w2 w3 : World B)
  (built : list (BuiltHistory B)) (sr lr : list string) :
  build_chat_histories B (conversation_personalization_instruction instruction)
    d h w = Ok (built, w1) ->
  generate_conversations_response B (slm_model instruction) built w1
  = Ok (sr, w2) ->
  generate_conversations_response B (llm_model instruction) built w2
  = Ok (lr, w3) ->
  (forall e,
      attach_error (broadcast B) (length h) [length sr; length lr] = Some e ->
      round_body B instruction (scored h0 d0 sr0 lr0 sc0, working h d) w
      = Raise e) /\
  (forall sc w4 s,
      length sr = length h -> length lr = length h ->
      comparison_score B (llm_model instruction) h lr sr w3 = Ok (sc, w4) ->
      DataFrame.int_series (wide_integers B) sc = Ok s ->
      (forall e,
          attach_error (broadcast B) (length h) [length sc] = Some e ->
          round_body B instruction (scored h0 d0 sr0 lr0 sc0, working h d) w
          = Raise e) /\
      (length sc = length h ->
       forallb DataFrame.in_int64 sc = true ->
       forall sq sd w5 lq ld w6,
         generate_next_conversation B (llm_model instruction) h sr d
           (documents instruction) w4 = Ok ((sq, sd), w5) ->
         generate_next_conversation B (slm_model instruction) h sr d
           (documents instruction) w5 = Ok ((lq, ld), w6) ->
         exists aug' tmp',
           round_body B instruction (scored h0 d0 sr0 lr0 sc0, working h d) w
           = Ok ((aug', tmp'), w6) /\
           DataFrame.height tmp'
           = 2 * Nat.min (length h)
                   (Nat.min (length sq)
                      (Nat.min (length lq)
                         (Nat.min (length sd) (length ld)))))).
Proof.
  intros E1 E2 E3. split.
  - intros e He.
    unfold round_body, bind, lift.
    rewrite text_list_working, chat_list_working, E1, E2, E3.
    now rewrite (attach_responses_error _ h d sr lr e He).
  - intros sc w4 s Hsr Hlr E4 I. split.
    + intros e He.
      unfold round_body, bind, lift.
      rewrite text_list_working, chat_list_working, E1, E2, E3.
      rewrite (attach_responses_aligned _ h d _ _ Hsr Hlr).
      rewrite chat_list_working_app, E4, I.
      rewrite <- (int_series_len _ _ _ I) in He.
      now rewrite (attach_scores_error _ h d sr lr s e He).
    + intros Hsc Hr sq sd w5 lq ld w6 E5 E6.
      eexists _, _. split.
      * apply (round_body_run B instruction h d w
                 (mkRoundData B built sr lr sc sq sd lq ld) w6); auto.
        exists w1, w2, w3, w4, w5. simpl. auto 10.
      * simpl. unfold expand. simpl.
        rewrite (proj1 (expansion_length _ _ _ _ _ _ _)), zip7_length.
        rewrite Hsr, Hlr. lia.
Qed.

Lemma alignment_checked_only_by_frame_witness :
  exists aug' tmp',
    round_body Short.backend (Stub.instruction ["doc1"] 2 1)
      (scored [] [] [] [] [],
       working [[user "start: doc1"]; [user "start: doc1"]] ["doc1"; "doc1"]) 2
    = Ok ((aug', tmp'), 8) /\
    DataFrame.height tmp' = 2 * Nat.min 2 (Nat.min 1 (Nat.min 1 (Nat.min 1 1))).
Proof.
  exact (proj2 (proj2
    (alignment_checked_only_by_frame Short.backend
       (Stub.instruction ["doc1"] 2 1) [] [] [] [] []
       [[user "start: doc1"]; [user "start: doc1"]] ["doc1"; "doc1"] 2 3 4 5
       [("personalise", [user "start: doc1"]);
        ("personalise", [user "start: doc1"])]
       ["SLM answer"; "SLM answer"] ["LLM answer"; "LLM answer"]
       eq_refl eq_refl eq_refl)
    [1%Z; 1%Z] 6 (DataFrame.SInt [1%Z; 1%Z]) eq_refl eq_refl eq_refl eq_refl)
    eq_refl eq_refl ["LLM asks"] ["doc1"] 7 ["SLM asks"] ["doc1"] 8
    eq_refl eq_refl).
Defined.

(** C6 fails as stated: on a working set of two conversations the
    continuation expander returns one question and one document; nothing
    is raised, the pipeline returns the two successors of the first
    conversation and the second conversation is dropped. *)
Lemma short_expander_output_is_zipped_silently :
  generate_next_conversation Short.backend "LLM"
    [[user "start: doc1"]; [user "start: doc1"]]
    ["SLM answer"; "SLM answer"] ["doc1"; "doc1"] ["doc1"] 6
  = Ok ((["LLM asks"], ["doc1"]), 7) /\
  pipeline_rounds Short.backend (Stub.instruction ["doc1"] 2 1) 0 0
  = Ok ((DataFrame.of_schema augmented_schema,
         working [[user "start: doc1"]; [user "start: doc1"]]
                 ["doc1"; "doc1"]), 2) /\
  knowledge_pipeline Short.backend (Stub.instruction ["doc1"] 2 1) 0
  = Ok (working
          [[user "start: doc1"; assistant "SLM answer"; user "LLM asks"];
           [user "start: doc1"; assistant "LLM answer"; user "SLM asks"]]
          ["doc1"; "doc1"], 8).
Proof. repeat split. Qed.

(** ** An empty working set *)

(** C7, as the code has it. Nothing checks the seeded working set for
    emptiness. When seeding leaves it empty and the collaborators answer the
    empty batch (the builder, the response generator and the scorer with
    empty arrays, the continuation expander with any arrays), the loop runs
    all its rounds on empty batches, the result set and the working set keep
    no record, and the pipeline returns a frame of the two columns
    [chat_history] and [document] without a row. *)
Theorem empty_working_set_runs_the_loop (B : Backend)
  (instruction : KnowledgeParameter (Model B))
  (HE : AnswersEmptyBatch B instruction) (w w1 : World B)
  (tmp0 : DataFrame.t) :
  seed B instruction (documents instruction)
    (DataFrame.of_schema temporary_schema) w = Ok (tmp0, w1) ->
  DataFrame.height tmp0 = 0 ->
  (forall n, exists aug tmp w',
      pipeline_rounds B instruction n w = Ok ((aug, tmp), w') /\
      DataFrame.height aug = 0 /\ DataFrame.height tmp = 0 /\
      DataFrame.chat_list tmp "chat_history" = Ok [] /\
      DataFrame.text_list tmp "document" = Ok []) /\
  exists df w',
    knowledge_pipeline B instruction w = Ok (df, w') /\
    DataFrame.height df = 0 /\
    DataFrame.column_names df = ["chat_history"; "document"] /\
    DataFrame.chat_list df "chat_history" = Ok [] /\
    DataFrame.text_list df "document" = Ok [].
Proof.
  intros Hseed H0.
  assert (Ht0 : tmp0 = working [] []).
  { change (DataFrame.of_schema temporary_schema) with (working [] []) in Hseed.
    apply seed_inv in Hseed; [|reflexivity].
    destruct Hseed as (h' & d' & -> & Hl & _). simpl in H0.
    destruct h'; [|discriminate]. destruct d'; [|discriminate]. reflexivity. }
  subst tmp0.
  assert (Hn : forall n, exists w',
             pipeline_rounds B instruction n w
             = Ok ((scored [] [] [] [] [], working [] []), w')).
  { induction n as [|n [w' IH]].
    - exists w1. unfold pipeline_rounds, bind. now rewrite Hseed.
    - rewrite pipeline_rounds_snoc, IH.
      destruct (empty_build B instruction HE w') as (v1 & E1).
      destruct (empty_response B instruction HE (slm_model instruction) v1)
        as (v2 & E2).
      destruct (empty_response B instruction HE (llm_model instruction) v2)
        as (v3 & E3).
      destruct (empty_score B instruction HE (llm_model instruction) v3)
        as (v4 & E4).
      destruct (empty_next B instruction HE (llm_model instruction) v4)
        as (sq & sd & v5 & E5).
      destruct (empty_next B instruction HE (slm_model instruction) v5)
        as (lq & ld & v6 & E6).
      exists v6.
      rewrite (round_body_run B instruction [] [] w'
                 (mkRoundData B [] [] [] [] sq sd lq ld) v6 [] [] [] [] []);
        try reflexivity.
      exists v1, v2, v3, v4, v5. simpl. auto 10. }
  split.
  - intros n. destruct (Hn n) as [w' Hw'].
    eexists _, _, w'. split; [exact Hw'|]. repeat split.
  - destruct (Hn (Z.to_nat (max_conversations instruction))) as [w' Hw'].
    exists (working [] []), w'. split.
    + unfold knowledge_pipeline, pipeline_state, bind. now rewrite Hw'.
    + repeat split.
Qed.

(** The short expander's collaborators answer the empty batch, though not
    every batch with arrays of its length. *)
Lemma short_backend_answers_empty_batch i :
  AnswersEmptyBatch Short.backend i.
Proof.
  constructor; simpl; intros; repeat eexists; reflexivity.
Qed.

Lemma empty_working_set_runs_the_loop_witness :
  (forall n, exists aug tmp w',
      pipeline_rounds Short.backend (Stub.instruction ["doc1"] 0 3) n 0
      = Ok ((aug, tmp), w') /\
      DataFrame.height aug = 0 /\ DataFrame.height tmp = 0 /\
      DataFrame.chat_list tmp "chat_history" = Ok [] /\
      DataFrame.text_list tmp "document" = Ok []) /\
  exists df w',
    knowledge_pipeline Short.backend (Stub.instruction ["doc1"] 0 3) 0
    = Ok (df, w') /\
    DataFrame.height df = 0 /\
    DataFrame.column_names df = ["chat_history"; "document"] /\
    DataFrame.chat_list df "chat_history" = Ok [] /\
    DataFrame.text_list df "document" = Ok [].
Proof.
  exact (empty_working_set_runs_the_loop Short.backend
           (Stub.instruction ["doc1"] 0 3)
           (short_backend_answers_empty_batch _) 0 2 (working [] [])
           eq_refl eq_refl).
Defined.

(** C7 fails as stated: with an empty document bank nothing is raised; the
    loop is entered, its six collaborator calls are made on empty batches
    (the stub world counts them), and the pipeline returns an empty frame. *)
Lemma empty_bank_enters_the_loop :
  seed Stub.backend (Stub.instruction [] 1 1) []
    (DataFrame.of_schema temporary_schema) 0 = Ok (working [] [], 0) /\
  knowledge_pipeline Stub.backend (Stub.instruction [] 1 1) 0
  = Ok (working [] [], 6).
Proof. split; reflexivity. Qed.

(** ** The calls a round makes *)

Lemma logged_inv (B : Backend) (A : Type) (c : Call B)
  (f : World B -> outcome (A * World B)) w l a w' l' :
  logged c f (w, l) = Ok (a, (w', l')) ->
  f w = Ok (a, w') /\ l' = l ++ [c].
Proof.
  unfold logged. simpl.
  destruct (f w) as [[a0 w0]|]; [|discriminate].
  intros H. injection H as <- <- <-. auto.
Qed.

(** C8. In every round of the loop the collaborators are called six times,
    in this order and with these arguments: the last two calls are the
    continuation expander's, the SLM-track one with the LLM model handle and
    the LLM-track one with the SLM model handle, and both are given the
    SLM's responses. The questions and documents of the LLM-track call are
    the ones the expansion puts in the LLM branches. *)
Theorem llm_track_expander_called_with_slm (B : Backend)
  (instruction : KnowledgeParameter (Model B)) (n : nat)
  (aug tmp aug' tmp' : DataFrame.t) (w0 w1 w2 : World B)
  (log0 log1 log2 : list (Call B)) :
  pipeline_rounds (instrument B) instruction n (w0, log0)
  = Ok ((aug, tmp), (w1, log1)) ->
  pipeline_rounds (instrument B) instruction (S n) (w0, log0)
  = Ok ((aug', tmp'), (w2, log2)) ->
  exists h d r,
    tmp = working h d /\
    round_calls B instruction h d w1 r w2 /\
    log2 = log1 ++
      [CallBuildHistories (conversation_personalization_instruction instruction)
         d h;
       CallResponse (slm_model instruction) (built_chat_histories r);
       CallResponse (llm_model instruction) (built_chat_histories r);
       CallScore (llm_model instruction) h (llm_responses r) (slm_responses r);
       CallNext (llm_model instruction) h (slm_responses r) d
         (documents instruction);
       CallNext (slm_model instruction) h (slm_responses r) d
         (documents instruction)] /\
    tmp' = working (fst (expand h r)) (snd (expand h r)).
Proof.
  intros E ES.
  rewrite pipeline_rounds_snoc, E in ES.
  pose proof (pipeline_rounds_wf (instrument B) _ _ _ _ _ _ E) as [Ha Ht].
  destruct Ht as (h & d & -> & Hd).
  apply round_body_inv in ES. destruct ES as (r & c & Hc & _ & _ & Ht').
  simpl in Ht'. subst tmp'.
  destruct r as [built sr lr sc sq sd lq ld].
  destruct Hc as ([v1 l1] & [v2 l2] & [v3 l3] & [v4 l4] & [v5 l5]
                  & E1 & E2 & E3 & E4 & E5 & E6).
  cbn [built_chat_histories slm_responses llm_responses scores slm_questions
       slm_documents llm_questions llm_documents instrument
       build_chat_histories generate_conversations_response comparison_score
       generate_next_conversation] in E1, E2, E3, E4, E5, E6.
  apply logged_inv in E1, E2, E3, E4, E5, E6.
  destruct E1 as [E1 ->], E2 as [E2 ->], E3 as [E3 ->], E4 as [E4 ->],
           E5 as [E5 ->], E6 as [E6 ->].
  exists h, d, (mkRoundData B built sr lr sc sq sd lq ld).
  split; [reflexivity|]. split; [|split].
  - exists v1, v2, v3, v4, v5. simpl. auto 10.
  - simpl. now rewrite <- !app_assoc.
  - reflexivity.
Qed.

Lemma llm_track_expander_called_with_slm_witness :
  exists h d r,
    working [[user "start: doc1"]] ["doc1"] = working h d /\
    round_calls Stub.backend (Stub.instruction ["doc1"] 1 1) h d 2 r 8 /\
    ([@CallKnowledgeInstruction Stub.backend "start: " "doc1";
      @CallStarter Stub.backend "LLM" 1%Z "start: doc1" None;
      @CallBuildHistories Stub.backend "personalise" ["doc1"] [[user "start: doc1"]];
      @CallResponse Stub.backend "SLM" [("personalise", [user "start: doc1"])];
      @CallResponse Stub.backend "LLM" [("personalise", [user "start: doc1"])];
      @CallScore Stub.backend "LLM" [[user "start: doc1"]] ["LLM answer"] ["SLM answer"];
      @CallNext Stub.backend "LLM" [[user "start: doc1"]] ["SLM answer"] ["doc1"] ["doc1"];
      @CallNext Stub.backend "SLM" [[user "start: doc1"]] ["SLM answer"] ["doc1"] ["doc1"]]
     : list (Call Stub.backend))
    = [@CallKnowledgeInstruction Stub.backend "start: " "doc1";
       @CallStarter Stub.backend "LLM" 1%Z "start: doc1" None] ++
      [@CallBuildHistories Stub.backend "personalise" d h;
       @CallResponse Stub.backend "SLM" (built_chat_histories r);
       @CallResponse Stub.backend "LLM" (built_chat_histories r);
       @CallScore Stub.backend "LLM" h (llm_responses r) (slm_responses r);
       @CallNext Stub.backend "LLM" h (slm_responses r) d ["doc1"];
       @CallNext Stub.backend "SLM" h (slm_responses r) d ["doc1"]] /\
    working
      [[user "start: doc1"; assistant "SLM answer";
        user "LLM asks after SLM answer"];
       [user "start: doc1"; assistant "LLM answer";
        user "SLM asks after SLM answer"]]
      ["doc1"; "doc1"]
    = working (fst (expand h r)) (snd (expand h r)).
Proof.
  exact (llm_track_expander_called_with_slm Stub.backend
           (Stub.instruction ["doc1"] 1 1) 0 _ _ _ _ 0 2 8 [] _ _
           eq_refl eq_refl).
Defined.

(** ** Grounding documents *)

(** C9. The seeder records each source document as it is; so when the
    continuation expander, given the pipeline's document bank, returns only
    documents of that bank, the document of every record of the working set
    is an element of the document bank, after seeding and after every
    round. *)
Theorem documents_stay_in_bank (B : Backend)
  (instruction : KnowledgeParameter (Model B))
  (Hbank : forall m h rs d w qs ds w',
      generate_next_conversation B m h rs d (documents instruction) w
      = Ok ((qs, ds), w') ->
      Forall (fun x => In x (documents instruction)) ds)
  (n : nat) (aug tmp : DataFrame.t) (w w' : World B) :
  pipeline_rounds B instruction n w = Ok ((aug, tmp), w') ->
  exists h docs,
    tmp = working h docs /\
    DataFrame.text_list tmp "document" = Ok docs /\
    Forall (fun x => In x (documents instruction)) docs.
Proof.
  revert aug tmp w'.
  induction n as [|n IH]; intros aug tmp w' E.
  - unfold pipeline_rounds, bind in E.
    destruct (seed B instruction _ _ w) as [[tmp0 w0]|] eqn:Es; [|discriminate].
    cbn [rounds] in E. unfold ret in E. injection E as _ <- _.
    change (DataFrame.of_schema temporary_schema) with (working [] []) in Es.
    apply seed_inv in Es; [|reflexivity].
    destruct Es as (h' & d' & -> & _ & Hin).
    exists h', d'. simpl. auto.
  - rewrite pipeline_rounds_snoc in E.
    destruct (pipeline_rounds B instruction n w) as [[[aug0 tmp0] w0]|] eqn:En;
      [|discriminate].
    destruct (IH _ _ _ eq_refl) as (h & d & -> & _ & _).
    apply round_body_inv in E. destruct E as (r & c & Hc & _ & _ & Ht').
    simpl in Ht'. subst tmp.
    exists (fst (expand h r)), (snd (expand h r)).
    split; [reflexivity|]. split; [reflexivity|].
    destruct Hc as (w1 & w2 & w3 & w4 & w5 & _ & _ & _ & _ & E5 & E6).
    apply Hbank in E5, E6. rewrite Forall_forall in E5, E6.
    unfold expand. rewrite expansion_flat_map. cbn [snd].
    apply Forall_forall. intros x Hx.
    apply in_flat_map in Hx.
    destruct Hx as ([p [sr [lr [sq [lq [sd ld]]]]]] & Hz & Hx).
    apply in_zip7_documents in Hz. destruct Hz as [Hsd Hld].
    simpl in Hx. destruct Hx as [<- | [<- | []]]; auto.
Qed.

Lemma stub_expander_grounded m h rs d w qs ds w' :
  generate_next_conversation Stub.backend m h rs d ["doc1"; "doc2"] w
  = Ok ((qs, ds), w') ->
  Forall (fun x => In x ["doc1"; "doc2"]) ds.
Proof.
  simpl. unfold Stub.stub_generate_next_conversation.
  intros H. injection H as _ <- _.
  apply Forall_forall. intros x Hx. apply in_map_iff in Hx.
  destruct Hx as (_ & <- & _). simpl. auto.
Qed.

Lemma documents_stay_in_bank_witness :
  exists h docs,
    working
      [[user "start: doc1"; assistant "SLM answer";
        user "LLM asks after SLM answer"];
       [user "start: doc1"; assistant "LLM answer";
        user "SLM asks after SLM answer"];
       [user "start: doc2"; assistant "SLM answer";
        user "LLM asks after SLM answer"];
       [user "start: doc2"; assistant "LLM answer";
        user "SLM asks after SLM answer"]]
      ["doc1"; "doc1"; "doc1"; "doc1"]
    = working h docs /\
    DataFrame.text_list
      (working
         [[user "start: doc1"; assistant "SLM answer";
           user "LLM asks after SLM answer"];
          [user "start: doc1"; assistant "LLM answer";
           user "SLM asks after SLM answer"];
          [user "start: doc2"; assistant "SLM answer";
           user "LLM asks after SLM answer"];
          [user "start: doc2"; assistant "LLM answer";
           user "SLM asks after SLM answer"]]
         ["doc1"; "doc1"; "doc1"; "doc1"]) "document" = Ok docs /\
    Forall (fun x => In x ["doc1"; "doc2"]) docs.
Proof.
  exact (documents_stay_in_bank Stub.backend
           (Stub.instruction ["doc1"; "doc2"] 1 1)
           stub_expander_grounded 1 _ _ 0 10 eq_refl).
Defined.

(** * Further properties of the pipeline *)

(** ** The seeding loop *)

Lemma seed_document_calls (B : Backend)
  (instruction : KnowledgeParameter (Model B)) h d document w tmp w' :
  seed_document B instruction (working h d) document w = Ok (tmp, w') ->
  exists built w1 chats,
    build_knowledge_instruction B
      (conversation_starter_instruction instruction) document w
    = Ok (built, w1) /\
    generate_conversation_starter B (llm_model instruction)
      (conversation_starter_count instruction) built None w1
    = Ok (chats, w') /\
    tmp = working (h ++ chats) (d ++ repeat document (length chats)).
Proof.
  unfold seed_document, bind, lift.
  destruct (build_knowledge_instruction B _ document w) as [[bi w1]|] eqn:E1;
    [|discriminate].
  destruct (generate_conversation_starter B _ _ bi None w1)
    as [[chats w2]|] eqn:E2; [|discriminate].
  fold (working chats (repeat document (length chats))).
  rewrite of_dict_working by apply repeat_length.
  rewrite vstack_working. intros H. injection H as <- <-.
  exists bi, w1, chats. auto.
Qed.

Lemma seed_starters (B : Backend) (instruction : KnowledgeParameter (Model B))
  (docs : list string) : forall h d w tmp w',
  seed B instruction docs (working h d) w = Ok (tmp, w') ->
  exists starters : list (list ChatHistory),
    seed_run B instruction docs w starters w' /\
    length starters = length docs /\
    tmp = working (h ++ concat starters) (d ++ seeded_documents docs starters).
Proof.
  induction docs as [|document docs IH]; intros h d w tmp w'; cbn [seed].
  - unfold ret. intros H. injection H as <- <-.
    exists []. split; [reflexivity|]. split; [reflexivity|].
    unfold seeded_documents. simpl. now rewrite !app_nil_r.
  - unfold bind at 1.
    destruct (seed_document B instruction (working h d) document w)
      as [[tmp1 w1]|] eqn:E; [|discriminate].
    apply seed_document_calls in E.
    destruct E as (built & v1 & chats & E1 & E2 & ->).
    intros H. apply IH in H. destruct H as (starters & Hr & Hl & ->).
    exists (chats :: starters). split; [|split; [simpl; lia|]].
    + cbn [seed_run]. exists built, v1, w1. auto.
    + unfold seeded_documents. simpl. now rewrite <- !app_assoc.
Qed.

(** X1. Seeding stacks what the starter generator returned, document by
    document in the order of the document bank, and writes beside every
    starter the document it was generated from: with [starters] the lists
    the generator returned for the successive documents, the seeded working
    set is their concatenation, its document column repeats each document
    once per starter of that document, and its height is the total number
    of starters. *)
Theorem seed_pairs_starters_with_documents (B : Backend)
  (instruction : KnowledgeParameter (Model B)) (w w' : World B)
  (tmp : DataFrame.t) :
  seed B instruction (documents instruction)
    (DataFrame.of_schema temporary_schema) w = Ok (tmp, w') ->
  exists starters : list (list ChatHistory),
    seed_run B instruction (documents instruction) w starters w' /\
    length starters = length (documents instruction) /\
    tmp = working (concat starters)
            (seeded_documents (documents instruction) starters) /\
    DataFrame.height tmp = list_sum (map (@length ChatHistory) starters).
Proof.
  intros H.
  change (DataFrame.of_schema temporary_schema) with (working [] []) in H.
  apply seed_starters in H. destruct H as (starters & Hr & Hl & ->).
  exists starters. split; [exact Hr|]. split; [exact Hl|].
  split; [reflexivity|].
  simpl. clear Hr Hl. induction starters as [|s starters IH]; simpl.
  - reflexivity.
  - rewrite length_app. now rewrite IH.
Qed.

Lemma seed_pairs_starters_with_documents_witness :
  exists starters : list (list ChatHistory),
    seed_run Stub.backend (Stub.instruction ["doc1"; "doc2"] 2 1)
      ["doc1"; "doc2"] 0 starters 4 /\
    length starters = 2 /\
    working [[user "start: doc1"]; [user "start: doc1"];
             [user "start: doc2"]; [user "start: doc2"]]
            ["doc1"; "doc1"; "doc2"; "doc2"]
    = working (concat starters) (seeded_documents ["doc1"; "doc2"] starters) /\
    4 = list_sum (map (@length ChatHistory) starters).
Proof.
  exact (seed_pairs_starters_with_documents Stub.backend
           (Stub.instruction ["doc1"; "doc2"] 2 1) 0 4 _ eq_refl).
Defined.

Lemma seed_document_log (B : Backend)
  (instruction : KnowledgeParameter (Model B)) tmp document w l tmp' w' l' :
  seed_document (instrument B) instruction tmp document (w, l)
  = Ok (tmp', (w', l')) ->
  exists built,
    l' = l ++ [CallKnowledgeInstruction
                 (conversation_starter_instruction instruction) document;
               CallStarter (llm_model instruction)
                 (conversation_starter_count instruction) built None].
Proof.
  unfold seed_document, bind, lift.
  cbn [instrument build_knowledge_instruction generate_conversation_starter
       llm_model].
  destruct (logged _ (build_knowledge_instruction B _ document) (w, l))
    as [[built [w1 l1]]|] eqn:E1; [|discriminate].
  apply logged_inv in E1. destruct E1 as [_ ->].
  destruct (logged _ (generate_conversation_starter B _ _ built None) (w1, _))
    as [[chats [w2 l2]]|] eqn:E2; [|discriminate].
  apply logged_inv in E2. destruct E2 as [_ ->].
  destruct (DataFrame.of_dict _) as [st|]; [|discriminate].
  destruct (DataFrame.vstack tmp st) as [tmp1|]; [|discriminate].
  intros H. injection H as _ _ <-.
  exists built. now rewrite <- app_assoc.
Qed.

Lemma seed_log (B : Backend) (instruction : KnowledgeParameter (Model B))
  (docs : list string) : forall tmp w l tmp' w' l',
  seed (instrument B) instruction docs tmp (w, l) = Ok (tmp', (w', l')) ->
  exists builts,
    length builts = length docs /\
    l' = l ++ seed_calls B instruction docs builts.
Proof.
  induction docs as [|document docs IH]; intros tmp w l tmp' w' l'; cbn [seed].
  - unfold ret. intros H. injection H as _ _ <-.
    exists []. split; [reflexivity|]. unfold seed_calls. simpl.
    now rewrite app_nil_r.
  - unfold bind at 1.
    destruct (seed_document (instrument B) instruction tmp document (w, l))
      as [[tmp1 [w1 l1]]|] eqn:E; [|discriminate].
    apply seed_document_log in E. destruct E as (built & ->).
    intros H. apply IH in H. destruct H as (builts & Hl & ->).
    exists (built :: builts). split; [simpl; lia|].
    unfold seed_calls. simpl. now rewrite <- app_assoc.
Qed.

(** X2. Seeding calls the collaborators twice per document and in document
    order: the instruction builder with the starter template and the
    document, then the starter generator with the LLM model handle, the
    configured starter count, the instruction just built and no system
    prompt. No other collaborator is called before the first round. *)
Theorem seeding_calls_two_per_document (B : Backend)
  (instruction : KnowledgeParameter (Model B)) (w w' : World B)
  (log log' : list (Call B)) (st : DataFrame.t * DataFrame.t) :
  pipeline_rounds (instrument B) instruction 0 (w, log) = Ok (st, (w', log')) ->
  exists builts : list (Instruction B),
    length builts = length (documents instruction) /\
    log' = log ++ seed_calls B instruction (documents instruction) builts /\
    length log' = length log + 2 * length (documents instruction).
Proof.
  unfold pipeline_rounds, bind.
  destruct (seed (instrument B) instruction _ _ (w, log))
    as [[tmp [w1 l1]]|] eqn:E; [|discriminate].
  cbn [rounds]. unfold ret. intros H. injection H as _ <- <-.
  apply seed_log in E. destruct E as (builts & Hl & ->).
  exists builts. split; [exact Hl|]. split; [reflexivity|].
  rewrite length_app. f_equal.
  unfold seed_calls. rewrite flat_map_pair_length, length_combine.
  f_equal. apply Nat.min_l, Nat.eq_le_incl. symmetry. exact Hl.
Qed.

Lemma seeding_calls_two_per_document_witness :
  exists builts : list string,
    length builts = 2 /\
    [@CallKnowledgeInstruction Stub.backend "start: " "doc1";
     @CallStarter Stub.backend "LLM" 3%Z "start: doc1" None;
     @CallKnowledgeInstruction Stub.backend "start: " "doc2";
     @CallStarter Stub.backend "LLM" 3%Z "start: doc2" None]
    = [] ++ seed_calls Stub.backend (Stub.instruction ["doc1"; "doc2"] 3 1)
              ["doc1"; "doc2"] builts /\
    4 = 0 + 2 * 2.
Proof.
  exact (seeding_calls_two_per_document Stub.backend
           (Stub.instruction ["doc1"; "doc2"] 3 1) 0 4 [] _ _ eq_refl).
Defined.

(** X3. A round count of zero or below runs no round, raises nothing and
    calls no round collaborator: the pipeline does what seeding does and
    returns the seeded working set. *)
Theorem no_rounds_returns_seeded_working_set (B : Backend)
  (instruction : KnowledgeParameter (Model B)) (w : World B) :
  (max_conversations instruction <= 0)%Z ->
  knowledge_pipeline B instruction w
  = seed B instruction (documents instruction)
      (DataFrame.of_schema temporary_schema) w.
Proof.
  intros H. unfold knowledge_pipeline, pipeline_state, pipeline_rounds, bind.
  replace (Z.to_nat (max_conversations instruction)) with 0 by lia.
  destruct (seed B instruction _ _ w) as [[tmp w1]|]; reflexivity.
Qed.

Lemma no_rounds_returns_seeded_working_set_witness :
  knowledge_pipeline Stub.backend (Stub.instruction ["doc1"] 2 (-3)) 0
  = seed Stub.backend (Stub.instruction ["doc1"] 2 (-3)) ["doc1"]
      (DataFrame.of_schema temporary_schema) 0.
Proof.
  apply (no_rounds_returns_seeded_working_set Stub.backend
           (Stub.instruction ["doc1"] 2 (-3)) 0).
  simpl. lia.
Defined.

(** ** Sizes *)

Lemma stub_backend_int64_scores : Int64Scores Stub.backend.
Proof.
  intros m h lr sr w out w' H. simpl in H.
  unfold Stub.stub_comparison_score in H. injection H as <- _.
  induction h; simpl; auto.
Qed.

(** X4. With collaborators that answer every batch with arrays of the
    batch's length, and with scores that fit 64 signed bits, a seeded
    pipeline never fails and grows geometrically: after [n] rounds the
    working set has [2 ^ n] times the seeded records and the result set
    [2 ^ n - 1] times. *)
Theorem aligned_pipeline_sizes (B : Backend) (HA : Aligned B)
  (HI : Int64Scores B)
  (instruction : KnowledgeParameter (Model B)) (w w0 : World B)
  (tmp0 : DataFrame.t) :
  seed B instruction (documents instruction)
    (DataFrame.of_schema temporary_schema) w = Ok (tmp0, w0) ->
  forall n, exists aug tmp w',
    pipeline_rounds B instruction n w = Ok ((aug, tmp), w') /\
    DataFrame.height tmp = 2 ^ n * DataFrame.height tmp0 /\
    DataFrame.height aug = (2 ^ n - 1) * DataFrame.height tmp0.
Proof.
  intros Hseed n. induction n as [|n (aug & tmp & w' & E & Ht & Ha)].
  - exists (DataFrame.of_schema augmented_schema), tmp0, w0.
    split; [|split].
    + unfold pipeline_rounds, bind. now rewrite Hseed.
    + simpl. lia.
    + reflexivity.
  - pose proof (pipeline_rounds_wf B _ _ _ _ _ _ E) as [Wa Wt].
    destruct Wt as (h & d & -> & Hd).
    destruct Wa as (h1 & d1 & sr1 & lr1 & sc1 & -> & _).
    destruct (aligned_round_calls B HA instruction h d w')
      as (r & w2 & Hc & Lsr & Llr & Lsc & Lsq & Lsd & Llq & Lld).
    assert (Hr : forallb DataFrame.in_int64 (scores r) = true).
    { destruct Hc as (v1 & v2 & v3 & v4 & v5 & _ & _ & _ & E4 & _).
      exact (HI _ _ _ _ _ _ _ E4). }
    pose proof (round_body_run B instruction h d w' r w2 h1 d1 sr1 lr1 sc1
                  Hc Lsr Llr Lsc Hr) as Hrun.
    eexists _, _, w2. split; [|split].
    + rewrite pipeline_rounds_snoc, E. exact Hrun.
    + cbn [DataFrame.height working]. cbn [DataFrame.len].
      unfold expand.
      rewrite (proj1 (expansion_length _ _ _ _ _ _ _)), zip7_length.
      simpl in Ht. rewrite Nat.pow_succ_r'. lia.
    + cbn [DataFrame.height scored DataFrame.len].
      rewrite length_app. simpl in Ht, Ha.
      rewrite Nat.pow_succ_r'.
      assert (0 < 2 ^ n) by (apply Nat.neq_0_lt_0, Nat.pow_nonzero; lia).
      nia.
Qed.

Lemma aligned_pipeline_sizes_witness :
  exists aug tmp w',
    pipeline_rounds Stub.backend (Stub.instruction ["doc1"; "doc2"] 3 5) 2 0
    = Ok ((aug, tmp), w') /\
    DataFrame.height tmp = 2 ^ 2 * 6 /\
    DataFrame.height aug = (2 ^ 2 - 1) * 6.
Proof.
  exact (aligned_pipeline_sizes Stub.backend stub_backend_aligned
           stub_backend_int64_scores
           (Stub.instruction ["doc1"; "doc2"] 3 5) 0 4
           (working
              [[user "start: doc1"]; [user "start: doc1"]; [user "start: doc1"];
               [user "start: doc2"]; [user "start: doc2"]; [user "start: doc2"]]
              ["doc1"; "doc1"; "doc1"; "doc2"; "doc2"; "doc2"])
           eq_refl 2).
Defined.

(** ** Descent of the conversations *)

Lemma expansion_parent h sr lr sq lq sd ld j child :
  nth_error (fst (expansion h sr lr sq lq sd ld)) j = Some child ->
  exists parent a q,
    nth_error h (j / 2) = Some parent /\
    child = parent ++ [assistant a; user q].
Proof.
  rewrite expansion_flat_map. cbn [fst]. intros H.
  pose proof (Nat.div_mod_eq j 2) as Hj.
  pose proof (Nat.mod_upper_bound j 2 ltac:(lia)) as Hm.
  remember (j / 2) as i eqn:Hi. clear Hi.
  destruct (j mod 2) as [|[|k]] eqn:Em; [| |lia].
  - assert (Hj' : j = 2 * i) by lia. rewrite Hj' in H.
    rewrite flat_map_pair_even in H.
    destruct (nth_error (zip7 h sr lr sq lq sd ld) i)
      as [[p [a [b [q [q' [x y]]]]]]|] eqn:Ez; [|discriminate].
    apply nth_error_zip7_inv in Ez. destruct Ez as (Hp & _).
    simpl in H. injection H as <-. now exists p, a, q.
  - assert (Hj' : j = 2 * i + 1) by lia. rewrite Hj' in H.
    rewrite flat_map_pair_odd in H.
    destruct (nth_error (zip7 h sr lr sq lq sd ld) i)
      as [[p [a [b [q [q' [x y]]]]]]|] eqn:Ez; [|discriminate].
    apply nth_error_zip7_inv in Ez. destruct Ez as (Hp & _).
    simpl in H. injection H as <-. now exists p, b, q'.
Qed.

(** X5. Every conversation of the working set after [n] rounds descends
    from a seeded starter: the record at index [j] is the starter at index
    [j / 2 ^ n] followed by exactly [n] pairs of an assistant turn and a
    user turn, and nothing of the starter is changed. *)
Theorem working_set_records_descend_from_starters (B : Backend)
  (instruction : KnowledgeParameter (Model B)) (n : nat) (w w0 w' : World B)
  (aug0 tmp0 aug tmp : DataFrame.t) (h0 h : list ChatHistory) :
  pipeline_rounds B instruction 0 w = Ok ((aug0, tmp0), w0) ->
  pipeline_rounds B instruction n w = Ok ((aug, tmp), w') ->
  DataFrame.chat_list tmp0 "chat_history" = Ok h0 ->
  DataFrame.chat_list tmp "chat_history" = Ok h ->
  forall j child,
    nth_error h j = Some child ->
    exists starter aq,
      nth_error h0 (j / 2 ^ n) = Some starter /\
      length aq = n /\
      child = starter ++ turn_pairs aq.
Proof.
  intros E0. revert aug tmp w' h.
  induction n as [|n IH]; intros aug tmp w' h E Hh0 Hh j child Hj.
  - rewrite E0 in E. injection E as _ <- _.
    rewrite Hh0 in Hh. injection Hh as <-.
    exists child, []. rewrite Nat.div_1_r, app_nil_r. auto.
  - rewrite pipeline_rounds_snoc in E.
    destruct (pipeline_rounds B instruction n w) as [[[aug1 tmp1] w1]|] eqn:En;
      [|discriminate].
    pose proof (pipeline_rounds_wf B _ _ _ _ _ _ En) as [_ Wt].
    destruct Wt as (h1 & d1 & -> & _).
    apply round_body_inv in E. destruct E as (r & c & _ & _ & _ & Ht).
    simpl in Ht. subst tmp. injection Hh as <-.
    unfold expand in Hj. apply expansion_parent in Hj.
    destruct Hj as (parent & a & q & Hp & ->).
    destruct (IH _ _ _ h1 eq_refl Hh0 eq_refl _ _ Hp)
      as (starter & aq & Hs & Hl & ->).
    exists starter, (aq ++ [(a, q)]).
    split; [|split].
    + rewrite Nat.pow_succ_r', <- Nat.Div0.div_div. exact Hs.
    + rewrite length_app. simpl. lia.
    + unfold turn_pairs. rewrite flat_map_app. simpl.
      now rewrite <- app_assoc.
Qed.

Lemma working_set_records_descend_from_starters_witness :
  exists starter aq,
    nth_error [[user "start: doc1"]; [user "start: doc2"]] (5 / 2 ^ 2)
    = Some starter /\
    length aq = 2 /\
    [user "start: doc2"; assistant "SLM answer";
     user "LLM asks after SLM answer"; assistant "LLM answer";
     user "SLM asks after SLM answer"]
    = starter ++ turn_pairs aq.
Proof.
  exact (working_set_records_descend_from_starters Stub.backend
           (Stub.instruction ["doc1"; "doc2"] 1 2) 2 0 4 16 _ _ _ _ _ _
           eq_refl eq_refl eq_refl eq_refl 5 _ eq_refl).
Defined.

(** X6. When at least one round is configured, the frame the pipeline
    returns has an even number of records and every chat history in it ends
    with an assistant response followed by a user question still to be
    answered. *)
Theorem returned_conversations_end_with_question (B : Backend)
  (instruction : KnowledgeParameter (Model B)) (w w' : World B)
  (df : DataFrame.t) (h : list ChatHistory) :
  (0 < max_conversations instruction)%Z ->
  knowledge_pipeline B instruction w = Ok (df, w') ->
  DataFrame.chat_list df "chat_history" = Ok h ->
  (exists k, DataFrame.height df = 2 * k) /\
  forall c, In c h ->
    exists prefix a q, c = prefix ++ [assistant a; user q].
Proof.
  intros Hpos. unfold knowledge_pipeline, bind.
  destruct (pipeline_state B instruction w) as [[[aug tmp] w1]|] eqn:E;
    [|discriminate].
  unfold ret. intros H. injection H as <- <-. intros Hh.
  unfold pipeline_state in E.
  destruct (Z.to_nat (max_conversations instruction)) as [|k] eqn:Ek; [lia|].
  rewrite pipeline_rounds_snoc in E.
  destruct (pipeline_rounds B instruction k w) as [[[aug1 tmp1] w2]|] eqn:Ep;
    [|discriminate].
  pose proof (pipeline_rounds_wf B _ _ _ _ _ _ Ep) as [_ Wt].
  destruct Wt as (h1 & d1 & -> & _).
  apply round_body_inv in E. destruct E as (r & c & _ & _ & _ & Ht).
  simpl in Ht. subst tmp. injection Hh as <-.
  split.
  - eexists. cbn [DataFrame.height working DataFrame.len]. unfold expand.
    apply expansion_length.
  - intros c0 Hin. apply In_nth_error in Hin. destruct Hin as [j Hj].
    unfold expand in Hj. apply expansion_parent in Hj.
    destruct Hj as (parent & a & q & _ & ->). now exists parent, a, q.
Qed.

Lemma returned_conversations_end_with_question_witness :
  (exists k, 2 = 2 * k) /\
  forall c,
    In c [[user "start: doc1"; assistant "SLM answer";
           user "LLM asks after SLM answer"];
          [user "start: doc1"; assistant "LLM answer";
           user "SLM asks after SLM answer"]] ->
    exists prefix a q, c = prefix ++ [assistant a; user q].
Proof.
  apply (returned_conversations_end_with_question Stub.backend
           (Stub.instruction ["doc1"] 1 1) 0 8
           (working
              [[user "start: doc1"; assistant "SLM answer";
                user "LLM asks after SLM answer"];
               [user "start: doc1"; assistant "LLM answer";
                user "SLM asks after SLM answer"]]
              ["doc1"; "doc1"])).
  - simpl. lia.
  - reflexivity.
  - reflexivity.
Defined.

(** ** Counting the calls *)

Lemma round_body_log_length (B : Backend)
  (instruction : KnowledgeParameter (Model B)) aug h d w l st' w' l' :
  round_body (instrument B) instruction (aug, working h d) (w, l)
  = Ok (st', (w', l')) ->
  length l' = length l + 6.
Proof.
  intros H. apply round_body_inv in H.
  destruct H as (r & c & Hc & _).
  destruct Hc as ([v1 l1] & [v2 l2] & [v3 l3] & [v4 l4] & [v5 l5]
                  & E1 & E2 & E3 & E4 & E5 & E6).
  cbn [instrument build_chat_histories generate_conversations_response
       comparison_score generate_next_conversation] in E1, E2, E3, E4, E5, E6.
  apply logged_inv in E1, E2, E3, E4, E5, E6.
  destruct E1 as [_ ->], E2 as [_ ->], E3 as [_ ->], E4 as [_ ->],
           E5 as [_ ->], E6 as [_ ->].
  rewrite !length_app. simpl. lia.
Qed.

(** X7. A run that gets through [n] rounds has made exactly two
    collaborator calls per document of the bank and six per round, whatever
    the size of the working set. *)
Theorem pipeline_call_count (B : Backend)
  (instruction : KnowledgeParameter (Model B)) (n : nat) (w w' : World B)
  (log log' : list (Call B)) (st : DataFrame.t * DataFrame.t) :
  pipeline_rounds (instrument B) instruction n (w, log) = Ok (st, (w', log')) ->
  length log' = length log + 2 * length (documents instruction) + 6 * n.
Proof.
  revert st w' log'.
  induction n as [|n IH]; intros st w' log' E.
  - unfold pipeline_rounds, bind in E.
    destruct (seed (instrument B) instruction _ _ (w, log))
      as [[tmp [w1 l1]]|] eqn:Es; [|discriminate].
    cbn [rounds] in E. unfold ret in E. injection E as _ <- <-.
    apply seed_log in Es. destruct Es as (builts & Hl & ->).
    rewrite length_app. unfold seed_calls.
    rewrite flat_map_pair_length, length_combine.
    rewrite Nat.min_l by (apply Nat.eq_le_incl; symmetry; exact Hl).
    now rewrite Nat.mul_0_r, Nat.add_0_r.
  - rewrite pipeline_rounds_snoc in E.
    destruct (pipeline_rounds (instrument B) instruction n (w, log))
      as [[[aug1 tmp1] [w1 l1]]|] eqn:En; [|discriminate].
    pose proof (pipeline_rounds_wf (instrument B) _ _ _ _ _ _ En) as [_ Wt].
    destruct Wt as (h1 & d1 & -> & _).
    destruct st as [aug tmp].
    apply round_body_log_length in E.
    rewrite E, (IH _ _ _ eq_refl), Nat.mul_succ_r, Nat.add_assoc.
    reflexivity.
Qed.

Lemma pipeline_call_count_witness :
  exists st w' log',
    pipeline_rounds (instrument Stub.backend)
      (Stub.instruction ["doc1"; "doc2"] 1 2) 1 (0, [])
    = Ok (st, (w', log')) /\
    length log' = 0 + 2 * 2 + 6 * 1.
Proof.
  eexists _, _, _.
  refine ((fun H => conj H
             (pipeline_call_count Stub.backend
                (Stub.instruction ["doc1"; "doc2"] 1 2) 1 0 _ [] _ _ H)) _).
  reflexivity.
Defined.

(** ** Failures *)



Lemma pipeline_rounds_raise_later (B : Backend)
  (instruction : KnowledgeParameter (Model B)) k w e :
  pipeline_rounds B instruction k w = Raise e ->
  forall m, pipeline_rounds B instruction (k + m) w = Raise e.
Proof.
  intros H m. induction m as [|m IH].
  - now rewrite Nat.add_0_r.
  - rewrite Nat.add_succ_r, pipeline_rounds_snoc, IH. reflexivity.
Qed.

(** X9. Nothing is caught and nothing partial is returned: when a round
    that the configured round count includes raises, the pipeline raises
    the same exception, and the result set accumulated by the earlier
    rounds is lost with it. *)
Theorem failed_round_aborts_the_run (B : Backend)
  (instruction : KnowledgeParameter (Model B)) (k : nat)
  (st : DataFrame.t * DataFrame.t) (w w1 : World B) (e : exn) :
  pipeline_rounds B instruction k w = Ok (st, w1) ->
  round_body B instruction st w1 = Raise e ->
  (Z.of_nat k < max_conversations instruction)%Z ->
  knowledge_pipeline B instruction w = Raise e.
Proof.
  intros E Er Hk.
  assert (Hs : pipeline_rounds B instruction (S k) w = Raise e).
  { now rewrite pipeline_rounds_snoc, E. }
  unfold knowledge_pipeline, pipeline_state, bind.
  replace (Z.to_nat (max_conversations instruction))
    with (S k + (Z.to_nat (max_conversations instruction) - S k)) by lia.
  now rewrite (pipeline_rounds_raise_later B instruction (S k) w e Hs).
Qed.

Lemma failed_round_aborts_the_run_witness :
  knowledge_pipeline Failing.backend (Stub.instruction ["doc1"] 1 3) 0
  = Raise (Exception "scorer unavailable").
Proof.
  apply (failed_round_aborts_the_run Failing.backend
           (Stub.instruction ["doc1"] 1 3) 0
           (DataFrame.of_schema augmented_schema,
            working [[user "start: doc1"]] ["doc1"]) 0 2).
  - reflexivity.
  - reflexivity.
  - simpl. lia.
Defined.

(** ** Positional alignment in the result set *)

(** X10. On a polars release that does not broadcast one-element columns,
    a round that returns had response and score arrays exactly as long as
    its working set, and what it stacks under the result set is that
    working set with those very arrays beside it: row [i] of the completed
    frame pairs the [i]-th conversation with the [i]-th SLM response, LLM
    response and score. *)
Theorem strict_round_stores_collaborator_arrays (B : Backend)
  (instruction : KnowledgeParameter (Model B)) (n : nat)
  (aug tmp aug' tmp' : DataFrame.t) (w w1 w2 : World B) :
  broadcast B = false ->
  pipeline_rounds B instruction n w = Ok ((aug, tmp), w1) ->
  pipeline_rounds B instruction (S n) w = Ok ((aug', tmp'), w2) ->
  exists h d r,
    tmp = working h d /\
    round_calls B instruction h d w1 r w2 /\
    length (slm_responses r) = length h /\
    length (llm_responses r) = length h /\
    length (scores r) = length h /\
    DataFrame.vstack aug
      (scored h d (slm_responses r) (llm_responses r) (scores r)) = Ok aug'.
Proof.
  intros Hb E ES.
  rewrite pipeline_rounds_snoc, E in ES.
  pose proof (pipeline_rounds_wf B _ _ _ _ _ _ E) as [Wa Wt].
  destruct Wt as (h & d & -> & _).
  destruct Wa as (h0 & d0 & sr0 & lr0 & sc0 & -> & _).
  apply round_body_inv in ES.
  destruct ES as (r & c & Hc & Hcomp & Hv & _). simpl in Hv.
  destruct (completed_stacked B _ _ _ _ _ _ _ _ _ _ _ _ _ Hc Hcomp Hv)
    as (sr & lr & sc & -> & _ & _ & _ & _ & _ & H1 & H2 & H3 & Hs).
  destruct (Hs Hb) as (Hsr & Hlr & Hsc).
  rewrite (H1 Hsr), (H2 Hlr), (H3 Hsc) in Hv.
  exists h, d, r. auto 10.
Qed.

Lemma strict_round_stores_collaborator_arrays_witness :
  exists h d r,
    working [[user "start: doc1"]; [user "start: doc1"]] ["doc1"; "doc1"]
    = working h d /\
    round_calls Stub.backend (Stub.instruction ["doc1"] 2 1) h d 2 r 8 /\
    length (slm_responses r) = length h /\
    length (llm_responses r) = length h /\
    length (scores r) = length h /\
    DataFrame.vstack (DataFrame.of_schema augmented_schema)
      (scored h d (slm_responses r) (llm_responses r) (scores r))
    = Ok (scored [[user "start: doc1"]; [user "start: doc1"]] ["doc1"; "doc1"]
            ["SLM answer"; "SLM answer"] ["LLM answer"; "LLM answer"]
            [1%Z; 1%Z]).
Proof.
  exact (strict_round_stores_collaborator_arrays Stub.backend
           (Stub.instruction ["doc1"] 2 1) 0 _ _ _ _ 0 2 8
           eq_refl eq_refl eq_refl).
Defined.
